(** * sample-app/src/app.py: a Flask application, its routes and its entry point

    The development embeds [src/sample-app/src/app.py] shallowly.  The file
    has four layers, bottom up:

    - [Py]: the Python built-ins the application calls ([os.getenv],
      [int], [str.lower], [datetime.isoformat], the [logging] levels);
    - [Werkzeug] and [Flask]: the part of the framework the application
      runs on (header multi-dict, URL rules, request dispatch, error
      handling, the [after_request] chain, [app.run]), as of Flask 1.1 and
      later;
    - [App]: the definitions of [app.py] itself, one per source function;
    - [Tests]: the test methods of [tests/test_app.py], run against a test
      client of the application.

    A request is handled in a [World], which holds what the application
    does not control: the environment, the clock, the static folder, and
    whether the view function raises.  A view that raises does so at its
    [return] statement, after the statements before it have run.  Handling
    a request yields the log records it leaves and the response, or the
    exception that Flask hands on to the WSGI server.

    What the model leaves out:

    - strings are Rocq strings, and [int()], [repr()] and [str.lower] are
      modelled on the ASCII range; the limit that recent interpreters put on the number
      of digits [int()] accepts is not modelled;
    - a response is the response object as the [after_request] functions
      see it: the [Content-Length] header that werkzeug derives from the
      serialised body is not in it, and the body of the answer to a HEAD
      request is not yet stripped;
    - paths are compared with the rules as they stand: the redirect with
      which recent werkzeug versions answer a path with a repeated slash is
      not modelled. *)

From Stdlib Require Import ZArith String Ascii List Lia Bool.
From stdpp Require Import base option list gmap strings pretty.

Local Open Scope string_scope.
Local Open Scope list_scope.
Local Open Scope Z_scope.

(** ** Python built-ins *)

Module Py.

(** [os.environ]: a dictionary from names to values. *)
Abbreviation environ := (gmap string string).

(** [os.getenv(key, default)] with a string default. *)
Definition getenv (e : environ) (key default : string) : string :=
  match e !! key with
  | Some v => v
  | None => default
  end.

(** *** Characters *)

Definition code (c : ascii) : N := N_of_ascii c.

Definition is_ascii_char (c : ascii) : bool := (code c <? 128)%N.

Fixpoint is_ascii (s : string) : bool :=
  match s with
  | EmptyString => true
  | String c s' => is_ascii_char c && is_ascii s'
  end.

(** [str.lower] on one character: only 'A'..'Z' move. *)
Definition lower_char (c : ascii) : ascii :=
  if ((65 <=? code c) && (code c <=? 90))%N
  then ascii_of_N (code c + 32)
  else c.

Fixpoint lower (s : string) : string :=
  match s with
  | EmptyString => EmptyString
  | String c s' => String (lower_char c) (lower s')
  end.

(** The white space that [int()] skips around the numeral of an ASCII
    string: TAB, LF, VT, FF, CR and the space.  The separators 0x1C..0x1F,
    which [str.isspace] accepts, are not among them. *)
Definition is_space (c : ascii) : bool :=
  let n := code c in
  (((9 <=? n) && (n <=? 13)) || (n =? 32))%N.

Definition digit_value (c : ascii) : option Z :=
  let n := code c in
  if ((48 <=? n) && (n <=? 57))%N then Some (Z.of_N n - 48) else None.

Definition is_digit (c : ascii) : bool :=
  match digit_value c with
  | Some _ => true
  | None => false
  end.

(** *** [int(s)] for a string [s], base ten

    Leading and trailing white space is skipped, one sign is allowed, and
    the digits may be grouped by single underscores that stand between two
    digits.  Anything else raises [ValueError], here [None]. *)

Fixpoint lstrip (s : string) : string :=
  match s with
  | String c s' => if is_space c then lstrip s' else s
  | EmptyString => EmptyString
  end.

Fixpoint all_space (s : string) : bool :=
  match s with
  | EmptyString => true
  | String c s' => is_space c && all_space s'
  end.

(** [int_digits acc s] reads the rest of a numeral after at least one
    digit has been read; [acc] is the value so far. *)
Fixpoint int_digits (acc : Z) (s : string) : option Z :=
  match s with
  | EmptyString => Some acc
  | String c s' =>
      match digit_value c with
      | Some d => int_digits (10 * acc + d) s'
      | None =>
          if Ascii.eqb c "_" then
            match s' with
            | String c' s'' =>
                match digit_value c' with
                | Some d => int_digits (10 * acc + d) s''
                | None => None
                end
            | EmptyString => None
            end
          else if all_space s then Some acc else None
      end
  end.

Definition int_unsigned (s : string) : option Z :=
  match s with
  | String c s' =>
      match digit_value c with
      | Some d => int_digits d s'
      | None => None
      end
  | EmptyString => None
  end.

Definition int_of_str (s : string) : option Z :=
  match lstrip s with
  | String c s' =>
      if Ascii.eqb c "-" then Z.opp <$> int_unsigned s'
      else if Ascii.eqb c "+" then int_unsigned s'
      else int_unsigned (String c s')
  | EmptyString => None
  end.

(** [os.getenv(key, default)] with a default of another type: the string
    of the variable, or the default as it is. *)
Definition getenv_or {A} (e : environ) (key : string) (default : A) : string + A :=
  match e !! key with
  | Some v => inl v
  | None => inr default
  end.

(** [int(v)] for a string or an integer; [inl] is the literal that
    [ValueError] reports. *)
Definition int (v : string + Z) : string + Z :=
  match v with
  | inr n => inr n
  | inl s =>
      match int_of_str s with
      | Some n => inr n
      | None => inl s
      end
  end.

(** *** [repr(s)] for a string [s], on the ASCII range

    The string stands in single quotes, or in double quotes when it holds
    a single quote and no double one.  The quote in use and the backslash
    get a backslash in front, TAB, LF and CR are written with their letter,
    and any other control character is written with its two hexadecimal
    digits. *)

Definition single_quote : ascii := "039".
Definition double_quote : ascii := "034".
Definition backslash : ascii := "092".

Fixpoint has_char (c : ascii) (s : string) : bool :=
  match s with
  | EmptyString => false
  | String c' s' => Ascii.eqb c c' || has_char c s'
  end.

Definition hex_digit (n : N) : ascii :=
  if (n <? 10)%N then ascii_of_N (48 + n) else ascii_of_N (87 + n).

Definition repr_char (quote c : ascii) : string :=
  let n := code c in
  if Ascii.eqb c quote || Ascii.eqb c backslash then String backslash (String c "")
  else if (n =? 9)%N then String backslash "t"
  else if (n =? 10)%N then String backslash "n"
  else if (n =? 13)%N then String backslash "r"
  else if ((n <? 32) || (n =? 127))%N
       then String backslash
              (String "x" (String (hex_digit (n / 16)) (String (hex_digit (n mod 16)) "")))
  else String c "".

Fixpoint repr_chars (quote : ascii) (s : string) : string :=
  match s with
  | EmptyString => EmptyString
  | String c s' => repr_char quote c +:+ repr_chars quote s'
  end.

Definition repr (s : string) : string :=
  let quote :=
    if has_char single_quote s && negb (has_char double_quote s)
    then double_quote else single_quote in
  String quote (repr_chars quote s) +:+ String quote "".

(** *** [datetime] *)

Record datetime := {
  year : N; month : N; day : N;
  hour : N; minute : N; second : N; microsecond : N }.

(** The ranges Python keeps the fields of a [datetime] in. *)
Definition valid_datetime (d : datetime) : Prop :=
  (1 ≤ year d ≤ 9999 ∧ 1 ≤ month d ≤ 12 ∧ 1 ≤ day d ≤ 31 ∧
   hour d ≤ 23 ∧ minute d ≤ 59 ∧ second d ≤ 59 ∧ microsecond d ≤ 999999)%N.

(** ["%0<w>d" % n] for a natural number. *)
Definition zfill (w : nat) (n : N) : string :=
  let s := pretty n in
  String.concat "" (replicate (w - String.length s) "0") +:+ s.

(** [datetime.isoformat()] of a naive value: date, 'T', time, and the
    microseconds only when they are not zero. *)
Definition isoformat (d : datetime) : string :=
  zfill 4 (year d) +:+ "-" +:+ zfill 2 (month d) +:+ "-" +:+ zfill 2 (day d)
  +:+ "T" +:+
  zfill 2 (hour d) +:+ ":" +:+ zfill 2 (minute d) +:+ ":" +:+ zfill 2 (second d)
  +:+ (if (microsecond d =? 0)%N then "" else "." +:+ zfill 6 (microsecond d)).

(** *** [logging] *)

Inductive level := DEBUG | INFO | WARNING | ERROR | CRITICAL.

Definition levelno (l : level) : Z :=
  match l with
  | DEBUG => 10 | INFO => 20 | WARNING => 30 | ERROR => 40 | CRITICAL => 50
  end.

End Py.

(** ** Werkzeug: headers, exceptions, URL rules *)

Module Werkzeug.

(** *** [werkzeug.datastructures.Headers]

    An ordered list of pairs; keys compare without regard to case. *)
Abbreviation Headers := (list (string * string)).

Definition key_eqb (k k' : string) : bool :=
  String.eqb (Py.lower k) (Py.lower k').

Definition remove (key : string) (h : Headers) : Headers :=
  filter (λ kv, key_eqb kv.1 key = false) h.

(** [headers[key] = value], that is [Headers.set]: the first entry with
    this key is replaced in place, every later one is dropped, and the
    pair is appended when there is none.  (Werkzeug refuses a value with a
    line break; the application sets none.) *)
Fixpoint set (h : Headers) (key value : string) : Headers :=
  match h with
  | [] => [(key, value)]
  | (old_key, old_value) :: h' =>
      if key_eqb old_key key
      then (key, value) :: remove key h'
      else (old_key, old_value) :: set h' key value
  end.

(** [Headers.getlist(key)]: every value stored under the key. *)
Definition getlist (h : Headers) (key : string) : list string :=
  (filter (λ kv, key_eqb kv.1 key = true) h).*2.

(** [Headers.get(key)]: the first of them. *)
Definition get (h : Headers) (key : string) : option string :=
  head (getlist h key).

(** *** Exceptions

    [fault] is an ordinary Python exception: the [ValueError] of a
    rejected [int()] literal, or [Error], any other one, with its
    [str()].  [exception] adds the three HTTP exceptions that occur in
    this application. *)
Inductive fault :=
| ValueError (literal : string)
| Error (description : string).

#[warnings="-register-all"]
Inductive exception :=
| NotFound
| MethodNotAllowed (valid_methods : list string)
| InternalServerError (original_exception : option exception)
| Fault (f : fault).

(** [str(e)] of an ordinary exception.  The message of [int()] quotes the
    literal with [repr], cut after 200 characters. *)
Definition fault_str (f : fault) : string :=
  match f with
  | ValueError literal =>
      "invalid literal for int() with base 10: "
      +:+ String.substring 0 200 (Py.repr literal)
  | Error d => d
  end.

(** [HTTPException.code]; an ordinary exception has none. *)
Definition code (e : exception) : option Z :=
  match e with
  | NotFound => Some 404
  | MethodNotAllowed _ => Some 405
  | InternalServerError _ => Some 500
  | Fault _ => None
  end.

Definition name (e : exception) : string :=
  match e with
  | NotFound => "Not Found"
  | MethodNotAllowed _ => "Method Not Allowed"
  | InternalServerError _ => "Internal Server Error"
  | Fault _ => "Unknown Error"
  end.

Definition description (e : exception) : string :=
  match e with
  | NotFound =>
      "The requested URL was not found on the server. If you entered the URL manually please check your spelling and try again."
  | MethodNotAllowed _ => "The method is not allowed for the requested URL."
  | InternalServerError _ =>
      "The server encountered an internal error and was unable to complete your request. Either the server is overloaded or there is an error in the application."
  | Fault f => fault_str f
  end.

(** [str(e)]: an HTTP exception prints its code, name and description. *)
Definition str (e : exception) : string :=
  match code e with
  | Some c => pretty c +:+ " " +:+ name e +:+ ": " +:+ description e
  | None => description e
  end.

(** *** URL rules

    A rule path is a fixed string, or a fixed prefix followed by the
    [<path:filename>] converter, which takes a non-empty rest that does
    not begin with a slash. *)
Inductive pattern :=
| Static (path : string)
| PathArg (prefix : string).

Record Rule := {
  rule : pattern;
  methods : list string;
  endpoint : string;
  provide_automatic_options : bool }.

Fixpoint strip_prefix (prefix s : string) : option string :=
  match prefix, s with
  | EmptyString, _ => Some s
  | String a prefix', String b s' =>
      if Ascii.eqb a b then strip_prefix prefix' s' else None
  | String _ _, EmptyString => None
  end.

(** The arguments a path gives a pattern when it matches. *)
Definition match_path (p : pattern) (path : string) : option (list string) :=
  match p with
  | Static s => if String.eqb s path then Some [] else None
  | PathArg prefix =>
      match strip_prefix prefix path with
      | Some (String c rest) =>
          if Ascii.eqb c "/" then None else Some [String c rest]
      | _ => None
      end
  end.

Definition has_method (m : string) (ms : list string) : bool :=
  existsb (String.eqb m) ms.

(** [MapAdapter.match]: the first rule that accepts path and method; a
    rule that accepts the path alone contributes its methods to the 405
    answer; nothing at all is a 404. *)
Fixpoint match_rules (rules : list Rule) (method path : string)
    (have_match_for : list string) : exception + (Rule * list string) :=
  match rules with
  | [] =>
      match have_match_for with
      | [] => inl NotFound
      | _ => inl (MethodNotAllowed have_match_for)
      end
  | r :: rules' =>
      match match_path (rule r) path with
      | Some args =>
          if has_method method (methods r) then inr (r, args)
          else match_rules rules' method path (have_match_for ++ methods r)
      | None => match_rules rules' method path have_match_for
      end
  end.

(** [MapAdapter.allowed_methods]: the methods of every rule that accepts
    the path. *)
Definition allowed_methods (rules : list Rule) (path : string) : list string :=
  flat_map (λ r, match match_path (rule r) path with
                  | Some _ => methods r
                  | None => []
                  end) rules.

End Werkzeug.

(** ** Flask: requests, responses, dispatch *)

Module Flask.
Import Werkzeug.

(** *** Values *)

(** What [jsonify] is given: integers, strings, lists, and dictionaries
    in the order of the literal. *)
#[warnings="-register-all"]
Inductive json :=
| JInt (n : Z)
| JStr (s : string)
| JList (items : list json)
| JDict (fields : list (string * json)).

Definition field (j : json) (key : string) : option json :=
  match j with
  | JDict fields => snd <$> find (λ kv, String.eqb kv.1 key) fields
  | _ => None
  end.

(** A response body: a JSON document, the page werkzeug renders for an
    HTTP exception, or plain content. *)
Inductive body :=
| Json (j : json)
| ErrorPage (code : Z) (name description : string)
| Data (content : string).

Record Response := {
  data : body;
  status_code : Z;
  headers : Headers }.

(** The request as the application could read it from [flask.request];
    [method] is in upper case, as werkzeug reports it. *)
Record Request := {
  method : string;
  path : string;
  args : list (string * string);
  request_headers : Headers;
  request_data : string }.

Record LogRecord := {
  levelname : Py.level;
  msg : string;
  exc_info : option exception }.

(** Everything a request observes that the application does not control:
    the process environment, the clock, an exception that the view
    function raises at its [return] statement when it does ([raises]),
    what the static folder answers for a file name, and the order in which
    werkzeug writes a set of methods into the [Allow] header. *)
Record World := {
  environ : Py.environ;
  utcnow : Py.datetime;
  raises : option fault;
  send_static_file : Request → string → exception + Response;
  allow_header : list string → string }.

(** What is in scope while one request is handled: the world, the
    request, and the level of the root logger, from which the loggers of
    the application inherit theirs. *)
Record Ctx := {
  world : World;
  request : Request;
  root_level : Py.level }.

(** *** Application code: a reader of the context that logs and may raise *)

Definition View (A : Type) : Type := Ctx → list LogRecord * (exception + A).

#[global] Instance view_ret : MRet View := λ A a _, ([], inr a).

#[global] Instance view_bind : MBind View := λ A B k m ctx,
  match m ctx with
  | (log, inl e) => (log, inl e)
  | (log, inr a) => let '(log', r) := k a ctx in (log ++ log', r)
  end.

Definition raise {A} (e : exception) : View A := λ _, ([], inl e).

Definition ask : View Ctx := λ ctx, ([], inr ctx).

(** [Logger.log]: the record is emitted when its level reaches the
    effective level, inherited from the root logger. *)
Definition log (l : Py.level) (m : string) (exc : option exception) : View unit :=
  λ ctx,
    (if Py.levelno (root_level ctx) <=? Py.levelno l
     then [{| levelname := l; msg := m; exc_info := exc |}]
     else [],
     inr tt).

(** [flask.jsonify(d)]. *)
Definition jsonify (j : json) : Response :=
  {| data := Json j;
     status_code := 200;
     headers := [("Content-Type", "application/json")] |}.

(** What the dispatcher turns into the response: a response, a pair of a
    response and a status, or an HTTP exception, which renders itself. *)
Inductive rv :=
| Rv (r : Response)
| RvStatus (r : Response) (status : Z)
| RvHTTP (e : exception).

(** *** The application object *)

Record App := {
  url_map : list Rule;
  view_functions : list (string * (list string → View rv));
  error_handler_spec : list (Z * (exception → View rv));
  after_request_funcs : list (Response → View Response);
  debug : bool;
  testing : bool;
  log_level : Py.level }.

(** [get_debug_flag()]: [FLASK_DEBUG] set to anything but a spelling of
    no. *)
Definition get_debug_flag (e : Py.environ) : bool :=
  match e !! "FLASK_DEBUG" with
  | None => false
  | Some val =>
      negb (String.eqb val "") &&
      negb (existsb (String.eqb (Py.lower val)) ["0"; "false"; "no"])
  end.

(** The view of the built-in [static] endpoint. *)
Definition static_view (view_args : list string) : View rv :=
  λ ctx,
    match view_args with
    | [filename] =>
        match send_static_file (world ctx) (request ctx) filename with
        | inl e => ([], inl e)
        | inr r => ([], inr (Rv r))
        end
    | _ => ([], inl (Fault (Error "send_static_file() takes one argument")))
    end.

(** [Flask.add_url_rule]: OPTIONS is added and answered automatically
    unless the caller lists it; a rule with GET also takes HEAD. *)
Definition add_url_rule (path : pattern) (endpoint : string)
    (view_func : list string → View rv) (methods : list string) (a : App) : App :=
  let automatic := negb (has_method "OPTIONS" methods) in
  let methods := if automatic then methods ++ ["OPTIONS"] else methods in
  let methods :=
    if has_method "GET" methods && negb (has_method "HEAD" methods)
    then methods ++ ["HEAD"] else methods in
  {| url_map := url_map a ++
       [{| rule := path; Werkzeug.methods := methods; endpoint := endpoint;
           provide_automatic_options := automatic |}];
     view_functions := (endpoint, view_func) :: view_functions a;
     error_handler_spec := error_handler_spec a;
     after_request_funcs := after_request_funcs a;
     debug := debug a; testing := testing a; log_level := log_level a |}.

(** [logging.basicConfig(level=...)] in a process whose root logger has
    no handler yet: the level the root logger has afterwards. *)
Definition basicConfig (level : Py.level) : Py.level := level.

(** [Flask(__name__)]: the static route, no handlers, [debug] from the
    environment, [testing] off; [root] is the level of the root logger. *)
Definition new (e : Py.environ) (root : Py.level) : App :=
  add_url_rule (PathArg "/static/") "static" static_view ["GET"]
    {| url_map := []; view_functions := []; error_handler_spec := [];
       after_request_funcs := [];
       debug := get_debug_flag e; testing := false;
       log_level := root |}.

(** [@app.route(path, methods=...)] on a function without parameters. *)
Definition route (path endpoint : string) (methods : list string)
    (f : View rv) : App → App :=
  add_url_rule (Static path) endpoint (λ _, f) methods.

(** [@app.errorhandler(code)]. *)
Definition errorhandler (code : Z) (f : exception → View rv) (a : App) : App :=
  {| url_map := url_map a; view_functions := view_functions a;
     error_handler_spec := (code, f) :: error_handler_spec a;
     after_request_funcs := after_request_funcs a;
     debug := debug a; testing := testing a; log_level := log_level a |}.

(** [@app.after_request]. *)
Definition after_request (f : Response → View Response) (a : App) : App :=
  {| url_map := url_map a; view_functions := view_functions a;
     error_handler_spec := error_handler_spec a;
     after_request_funcs := after_request_funcs a ++ [f];
     debug := debug a; testing := testing a; log_level := log_level a |}.

Definition set_debug (d : bool) (a : App) : App :=
  {| url_map := url_map a; view_functions := view_functions a;
     error_handler_spec := error_handler_spec a;
     after_request_funcs := after_request_funcs a;
     debug := d; testing := testing a; log_level := log_level a |}.

Fixpoint assoc {K V} (eqb : K → K → bool) (k : K) (l : list (K * V)) : option V :=
  match l with
  | [] => None
  | (k', v) :: l' => if eqb k' k then Some v else assoc eqb k l'
  end.

(** *** Handling one request *)

(** [HTTPException.get_response()]. *)
Definition get_response (w : World) (e : exception) : Response :=
  {| data := ErrorPage (default 500 (code e)) (name e) (description e);
     status_code := default 500 (code e);
     headers :=
       ("Content-Type", "text/html; charset=utf-8") ::
       match e with
       | MethodNotAllowed valid_methods => [("Allow", allow_header w valid_methods)]
       | _ => []
       end |}.

(** [make_default_options_response()]. *)
Definition make_default_options_response (a : App) : View Response :=
  λ ctx,
    ([], inr {| data := Data "";
                status_code := 200;
                headers :=
                  [("Content-Type", "text/html; charset=utf-8");
                   ("Allow", allow_header (world ctx)
                               (allowed_methods (url_map a) (path (request ctx))))] |}).

(** [dispatch_request]: route, answer OPTIONS, or call the view.  The call
    of the view is where the world may strike: with [raises] set, the view
    function runs its statements and raises where it would return, so that
    what it has logged by then stays in the log, and the exception escapes
    instead of a result. *)
Definition dispatch_request (a : App) : View rv :=
  ctx ← ask;
  match match_rules (url_map a) (method (request ctx)) (path (request ctx)) [] with
  | inl routing_exception => raise routing_exception
  | inr (r, view_args) =>
      if provide_automatic_options r && String.eqb (method (request ctx)) "OPTIONS"
      then response ← make_default_options_response a; mret (Rv response)
      else
        match assoc String.eqb (endpoint r) (view_functions a) with
        | None => raise (Fault (Error (endpoint r)))
        | Some view_func =>
            rv ← view_func view_args;
            match raises (world ctx) with
            | Some f => raise (Fault f)
            | None => mret rv
            end
        end
  end.

Definition make_response (w : World) (r : rv) : Response :=
  match r with
  | Rv r => r
  | RvStatus r status =>
      {| data := data r; status_code := status; headers := headers r |}
  | RvHTTP e => get_response w e
  end.

(** [try: m  except Exception as e: h(e)]. *)
Definition try_except {A} (m : View A) (h : exception → View A) : View A :=
  λ ctx,
    match m ctx with
    | (log, inl e) => let '(log', r) := h e ctx in (log ++ log', r)
    | (log, inr a) => (log, inr a)
    end.

(** The handler registered for the code of the exception, if any. *)
Definition find_error_handler (a : App) (e : exception)
    : option (exception → View rv) :=
  c ← code e; assoc Z.eqb c (error_handler_spec a).

Definition handle_http_exception (a : App) (e : exception) : View rv :=
  match find_error_handler a e with
  | None => mret (RvHTTP e)
  | Some handler => handler e
  end.

Definition handle_user_exception (a : App) (e : exception) : View rv :=
  match e with
  | Fault _ =>
      match find_error_handler a e with
      | None => raise e
      | Some handler => handler e
      end
  | _ => handle_http_exception a e
  end.

(** The [after_request] functions, last registered first. *)
Fixpoint process_response (funcs : list (Response → View Response))
    (response : Response) : View Response :=
  match funcs with
  | [] => mret response
  | func :: funcs' => response' ← func response; process_response funcs' response'
  end.

Definition finalize_request (a : App) (r : rv) (from_error_handler : bool)
    : View Response :=
  ctx ← ask;
  let response := make_response (world ctx) r in
  try_except (process_response (rev (after_request_funcs a)) response)
    (λ e,
       if from_error_handler
       then log Py.ERROR
              "Request finalizing failed with an error while handling an error"
              (Some e);;
            mret response
       else raise e).

Definition full_dispatch_request (a : App) : View Response :=
  r ← try_except (dispatch_request a) (handle_user_exception a);
  finalize_request a r false.

(** [handle_exception]: with [debug] or [testing] on the exception is
    raised again; otherwise it is logged and turned into the 500 answer. *)
Definition handle_exception (a : App) (e : exception) : View Response :=
  if testing a || debug a then raise e
  else
    ctx ← ask;
    log Py.ERROR
      ("Exception on " +:+ path (request ctx) +:+ " [" +:+ method (request ctx) +:+ "]")
      (Some e);;
    let server_error := InternalServerError (Some e) in
    r ← match find_error_handler a server_error with
        | Some handler => handler server_error
        | None => mret (RvHTTP server_error)
        end;
    finalize_request a r true.

Definition wsgi_app (a : App) : View Response :=
  try_except (full_dispatch_request a) (handle_exception a).

(** One request against the application: the log records it leaves and
    the response, or the exception handed on to the WSGI server. *)
Definition handle (a : App) (w : World) (req : Request)
    : list LogRecord * (exception + Response) :=
  wsgi_app a {| world := w; request := req; root_level := log_level a |}.

(** *** [app.run] *)

Record Server := {
  application : App;
  host : string;
  port : Z }.

(** [app.run(host, port, debug)]: the call is ignored under the [flask]
    command; a [debug] argument overrides every other source. *)
Definition run (a : App) (e : Py.environ) (host : string) (port : Z)
    (debug : option bool) : option Server :=
  if decide (e !! "FLASK_RUN_FROM_CLI" = Some "true") then None
  else
    Some {| application :=
              match debug with
              | Some d => set_debug d a
              | None => a
              end;
            host := host; port := port |}.

End Flask.

(** ** The application, [app.py] *)

Module App.
Import Werkzeug Flask.

(** [logger = logging.getLogger(__name__)] *)
Definition logger_info (m : string) : View unit := log Py.INFO m None.
Definition logger_error (m : string) : View unit := log Py.ERROR m None.

Definition with_headers (response : Response) (h : Headers) : Response :=
  {| data := data response; status_code := status_code response; headers := h |}.

Definition add_security_headers (response : Response) : View Response :=
  let response := with_headers response
    (set (headers response) "X-Content-Type-Options" "nosniff") in
  let response := with_headers response
    (set (headers response) "X-Frame-Options" "DENY") in
  let response := with_headers response
    (set (headers response) "X-XSS-Protection" "1; mode=block") in
  let response := with_headers response
    (set (headers response) "Strict-Transport-Security"
       "max-age=31536000; includeSubDomains") in
  mret response.

Definition health_check : View rv :=
  ctx ← ask;
  mret (RvStatus
          (jsonify (JDict [
             ("status", JStr "healthy");
             ("timestamp", JStr (Py.isoformat (utcnow (world ctx))));
             ("version", JStr (Py.getenv (environ (world ctx)) "APP_VERSION" "1.0.0"))]))
          200).

Definition readiness_check : View rv :=
  ctx ← ask;
  mret (RvStatus
          (jsonify (JDict [
             ("status", JStr "ready");
             ("timestamp", JStr (Py.isoformat (utcnow (world ctx))))]))
          200).

Definition index : View rv :=
  ctx ← ask;
  mret (RvStatus
          (jsonify (JDict [
             ("message", JStr "Secure CI/CD Pipeline Demo");
             ("version", JStr (Py.getenv (environ (world ctx)) "APP_VERSION" "1.0.0"));
             ("environment", JStr (Py.getenv (environ (world ctx)) "ENVIRONMENT" "development"))]))
          200).

Definition get_data : View rv :=
  logger_info "Data endpoint accessed";;
  ctx ← ask;
  mret (RvStatus
          (jsonify (JDict [
             ("data", JList [
                JDict [("id", JInt 1); ("name", JStr "Item 1")];
                JDict [("id", JInt 2); ("name", JStr "Item 2")];
                JDict [("id", JInt 3); ("name", JStr "Item 3")]]);
             ("timestamp", JStr (Py.isoformat (utcnow (world ctx))))]))
          200).

Definition not_found (error : exception) : View rv :=
  mret (RvStatus
          (jsonify (JDict [("error", JStr "Not found"); ("status", JInt 404)]))
          404).

Definition internal_error (error : exception) : View rv :=
  logger_error ("Internal error: " +:+ str error);;
  mret (RvStatus
          (jsonify (JDict [("error", JStr "Internal server error"); ("status", JInt 500)]))
          500).

(** The module level of [app.py], in the order of the source; [e] is the
    environment of the process. *)
Definition app (e : Py.environ) : App :=
  let root := basicConfig Py.INFO in
  let app := new e root in
  let app := after_request add_security_headers app in
  let app := route "/health" "health_check" ["GET"] health_check app in
  let app := route "/ready" "readiness_check" ["GET"] readiness_check app in
  let app := route "/" "index" ["GET"] index app in
  let app := route "/api/data" "get_data" ["GET"] get_data app in
  let app := errorhandler 404 not_found app in
  let app := errorhandler 500 internal_error app in
  app.

Inductive startup :=
| Started (srv : Server)
| Ignored
| Raised (e : exception).

(** [if __name__ == '__main__':] *)
Definition main (e : Py.environ) : startup :=
  match Py.int (Py.getenv_or e "PORT" 8080) with
  | inl literal => Raised (Fault (ValueError literal))
  | inr port =>
      match run (app e) e "0.0.0.0" port (Some false) with
      | Some srv => Started srv
      | None => Ignored
      end
  end.

End App.


Import Werkzeug Flask App.

(** ** Concrete worlds and requests *)

Module Sample.

Definition now : Py.datetime :=
  {| Py.year := 2024; Py.month := 1; Py.day := 2; Py.hour := 3;
     Py.minute := 4; Py.second := 5; Py.microsecond := 678 |}.

(** A world with environment [e] in which the static folder is empty and
    the view raises [f], if any. *)
Definition world (e : Py.environ) (f : option fault) : World :=
  {| environ := e; utcnow := now; raises := f;
     send_static_file := λ _ _, inl NotFound;
     allow_header := String.concat ", " |}.

Definition request (method path : string) : Request :=
  {| method := method; path := path; args := [("page", "2")];
     request_headers := [("Host", "localhost")];
     request_data := "payload" |}.

(** The same request with another query string, other headers and
    another body. *)
Definition other_request (method path : string) : Request :=
  {| method := method; path := path; args := [("q", "x"); ("page", "7")];
     request_headers := [("Host", "example.org"); ("Accept", "text/html")];
     request_data := "" |}.

(** A world that agrees with [world e f] on clock, environment and fault,
    and differs in the static folder and in the order of [Allow]. *)
Definition other_world (e : Py.environ) (f : option fault) : World :=
  {| environ := e; utcnow := now; raises := f;
     send_static_file := λ _ name,
       inr {| data := Data name; status_code := 200; headers := [] |};
     allow_header := λ ms, String.concat ", " (rev ms) |}.

End Sample.

(** ** The tests, [tests/test_app.py] *)

Module Tests.

(** How a test method ends: it passes, an assertion fails, or an exception
    other than [AssertionError] escapes it. *)
Inductive verdict :=
| Passed
| Failed
| Errored (e : exception).

(** An assertion, and the rest of the test after it. *)
Definition assert_ (b : bool) (rest : verdict) : verdict :=
  if b then rest else Failed.

(** [needle in hay] for two strings. *)
Fixpoint is_substring (needle hay : string) : bool :=
  String.prefix needle hay ||
  match hay with
  | String _ hay' => is_substring needle hay'
  | EmptyString => false
  end.

(** [json.loads(response.data)]: the document that [jsonify] serialised is
    read back; the page of an HTTP exception is no JSON; other content is
    left to [loads_text]. *)
Definition loads (loads_text : string → exception + json) (b : body)
    : exception + json :=
  match b with
  | Json j => inr j
  | ErrorPage _ _ _ => inl (Fault (Error "JSONDecodeError"))
  | Data content => loads_text content
  end.

(** [data[key]] for a string key: the value in a dictionary, [KeyError]
    when it has none, [TypeError] on anything else. *)
Definition getitem (data : json) (key : string) : exception + json :=
  match data with
  | JDict _ =>
      match field data key with
      | Some v => inr v
      | None => inl (Fault (Error ("KeyError: " +:+ key)))
      end
  | _ => inl (Fault (Error "TypeError"))
  end.

(** [key in data]: a key of a dictionary, an item of a list, a part of a
    string; an integer is not iterable. *)
Definition contains (data : json) (key : string) : exception + bool :=
  match data with
  | JDict fields => inr (existsb (String.eqb key) fields.*1)
  | JList items =>
      inr (existsb (λ item, match item with
                            | JStr s => String.eqb s key
                            | _ => false
                            end) items)
  | JStr s => inr (is_substring key s)
  | JInt _ => inl (Fault (Error "TypeError"))
  end.

(** [self.assertIn(key, data)] *)
Definition assertIn (key : string) (data : json) (rest : verdict) : verdict :=
  match contains data key with
  | inl e => Errored e
  | inr b => assert_ b rest
  end.

(** [self.assertEqual(value, "literal")] and [self.assertEqual(value, n)] *)
Definition assertEqual_str (value : json) (expected : string) : verdict → verdict :=
  assert_ match value with
          | JStr s => String.eqb s expected
          | _ => false
          end.

Definition assertEqual_int (value : json) (expected : Z) : verdict → verdict :=
  assert_ match value with
          | JInt n => n =? expected
          | _ => false
          end.

(** [self.assertIn(name, response.headers)] and [response.headers[name]] *)
Definition assertIn_headers (name : string) (h : Headers) : verdict → verdict :=
  assert_ match get h name with
          | Some _ => true
          | None => false
          end.

Definition getitem_headers (h : Headers) (name : string) : exception + string :=
  match get h name with
  | Some v => inr v
  | None => inl (Fault (Error ("KeyError: " +:+ name)))
  end.

Section TestApp.

(** [self.app], the test client of [setUp]: its [get]. *)
Variable client_get : string → exception + Response.
Variable loads_text : string → exception + json.

(** [x = e; rest], where an exception in [e] ends the test. *)
Definition let_ {A} (r : exception + A) (rest : A → verdict) : verdict :=
  match r with
  | inl e => Errored e
  | inr a => rest a
  end.

Definition test_health_check : verdict :=
  let_ (client_get "/health") (λ response,
  assert_ (status_code response =? 200) (
  let_ (loads loads_text (data response)) (λ data,
  let_ (getitem data "status") (λ status,
  assertEqual_str status "healthy" (
  assertIn "timestamp" data (
  assertIn "version" data Passed)))))).

Definition test_readiness_check : verdict :=
  let_ (client_get "/ready") (λ response,
  assert_ (status_code response =? 200) (
  let_ (loads loads_text (data response)) (λ data,
  let_ (getitem data "status") (λ status,
  assertEqual_str status "ready" Passed)))).

Definition test_index : verdict :=
  let_ (client_get "/") (λ response,
  assert_ (status_code response =? 200) (
  let_ (loads loads_text (data response)) (λ data,
  assertIn "message" data (
  assertIn "version" data Passed)))).

Definition test_api_data : verdict :=
  let_ (client_get "/api/data") (λ response,
  assert_ (status_code response =? 200) (
  let_ (loads loads_text (data response)) (λ data,
  assertIn "data" data (
  let_ (getitem data "data") (λ items,
  assert_ match items with JList _ => true | _ => false end (
  let_ (getitem data "data") (λ items,
  match items with
  | JList l => assert_ (0 <? Z.of_nat (length l)) Passed
  | JDict l => assert_ (0 <? Z.of_nat (length l)) Passed
  | JStr s => assert_ (0 <? Z.of_nat (String.length s)) Passed
  | JInt _ => Errored (Fault (Error "TypeError"))
  end))))))).

Definition test_404_handler : verdict :=
  let_ (client_get "/nonexistent") (λ response,
  assert_ (status_code response =? 404) (
  let_ (loads loads_text (data response)) (λ data,
  let_ (getitem data "status") (λ status,
  assertEqual_int status 404 Passed)))).

Definition test_security_headers : verdict :=
  let_ (client_get "/") (λ response,
  assertIn_headers "X-Content-Type-Options" (headers response) (
  let_ (getitem_headers (headers response) "X-Content-Type-Options") (λ v,
  assert_ (String.eqb v "nosniff") (
  assertIn_headers "X-Frame-Options" (headers response) (
  let_ (getitem_headers (headers response) "X-Frame-Options") (λ v,
  assert_ (String.eqb v "DENY") (
  assertIn_headers "X-XSS-Protection" (headers response) Passed))))))).

(** [unittest.main()]: the verdicts of the six test methods. *)
Definition run_tests : list verdict :=
  [test_404_handler; test_api_data; test_health_check; test_index;
   test_readiness_check; test_security_headers].

End TestApp.

(** [app.test_client().get(path)]: a GET request without query string or
    body, with the headers [hs] that the client sends by default; an
    exception that the application hands on reaches the test. *)
Definition test_client (a : App) (w : World) (hs : Headers) (path : string)
    : exception + Response :=
  (handle a w {| method := "GET"; path := path; args := [];
                 request_headers := hs; request_data := "" |}).2.

End Tests.

(** ** Vocabulary of the statements *)

Definition security_headers : list (string * string) :=
  [("X-Content-Type-Options", "nosniff");
   ("X-Frame-Options", "DENY");
   ("X-XSS-Protection", "1; mode=block");
   ("Strict-Transport-Security", "max-age=31536000; includeSubDomains")].

(** A response carries the security headers when each of the four names
    holds its value and no other. *)
Definition carries_security_headers (r : Response) : Prop :=
  Forall (λ kv, getlist (headers r) kv.1 = [kv.2]) security_headers.

(** The response [add_security_headers] hands back. *)
Definition secured (response : Response) : Response :=
  with_headers response
    (set (set (set (set (headers response)
       "X-Content-Type-Options" "nosniff")
       "X-Frame-Options" "DENY")
       "X-XSS-Protection" "1; mode=block")
       "Strict-Transport-Security" "max-age=31536000; includeSubDomains").

(** The entries of a header list under a name, keys and values. *)
Definition entries (h : Headers) (key : string) : Headers :=
  filter (λ kv, key_eqb kv.1 key = true) h.

(** The headers of a list whose name is none of the four, in their order. *)
Definition other_headers (h : Headers) : Headers :=
  filter (λ kv, forallb (λ s, negb (key_eqb kv.1 s.1)) security_headers = true) h.

(** The request with GET for its method. *)
Definition as_get (req : Request) : Request :=
  {| method := "GET"; path := path req; args := args req;
     request_headers := request_headers req; request_data := request_data req |}.

(** The four paths that [app.py] routes. *)
Definition defined_paths : list string := ["/health"; "/ready"; "/"; "/api/data"].

Definition not_found_body : json :=
  JDict [("error", JStr "Not found"); ("status", JInt 404)].

Definition internal_error_body : json :=
  JDict [("error", JStr "Internal server error"); ("status", JInt 500)].

(** What the view of a path has logged by the time it returns: the record
    of [get_data] on /api/data, nothing on the other paths. *)
Definition view_log (p : string) : list LogRecord :=
  if decide (p = "/api/data")
  then [{| levelname := Py.INFO; msg := "Data endpoint accessed"; exc_info := None |}]
  else [].

(** The two records an exception that escapes leaves in the log: the one
    of [Flask.log_exception], which carries the exception, and the one of
    [internal_error]. *)
Definition internal_error_log (req : Request) (e : exception) : list LogRecord :=
  [{| levelname := Py.ERROR;
      msg := "Exception on " +:+ path req +:+ " [" +:+ method req +:+ "]";
      exc_info := Some e |};
   {| levelname := Py.ERROR;
      msg := "Internal error: " +:+ str (InternalServerError (Some e));
      exc_info := None |}].

(** A pattern is a list of positions: a literal character, or [None] for a
    decimal digit.  A string matches when it has the length of the pattern
    and agrees with it position by position. *)
Fixpoint matches (pat : list (option ascii)) (s : string) : bool :=
  match pat, s with
  | [], EmptyString => true
  | None :: pat', String c s' => Py.is_digit c && matches pat' s'
  | Some a :: pat', String c s' => Ascii.eqb a c && matches pat' s'
  | _, _ => false
  end.

Definition digits (n : nat) : list (option ascii) := replicate n None.
Definition lit (c : ascii) : list (option ascii) := [Some c].

(** YYYY-MM-DDTHH:MM:SS, and the same followed by .ffffff *)
Definition iso8601_seconds : list (option ascii) :=
  digits 4 ++ lit "-" ++ digits 2 ++ lit "-" ++ digits 2 ++ lit "T" ++
  digits 2 ++ lit ":" ++ digits 2 ++ lit ":" ++ digits 2.

Definition iso8601_shape (s : string) : bool :=
  matches iso8601_seconds s || matches (iso8601_seconds ++ lit "." ++ digits 6) s.

(** A path as werkzeug hands it to the URL map: it begins with one slash
    and no slash is repeated. *)
Fixpoint repeated_slash (s : string) : bool :=
  match s with
  | String a s' =>
      match s' with
      | String b _ => (Ascii.eqb a "/" && Ascii.eqb b "/") || repeated_slash s'
      | EmptyString => false
      end
  | EmptyString => false
  end.

Definition canonical_path (p : string) : bool :=
  match p with
  | String c _ => Ascii.eqb c "/" && negb (repeated_slash p)
  | EmptyString => false
  end.

(** The answer to OPTIONS on one of the four paths, before the
    [after_request] function has run. *)
Definition options_response (w : World) : Response :=
  {| data := Data "";
     status_code := 200;
     headers := [("Content-Type", "text/html; charset=utf-8");
                 ("Allow", allow_header w ["GET"; "OPTIONS"; "HEAD"])] |}.

(** A JSON response after the [after_request] function has run. *)
Definition json_response (j : json) (status : Z) : Response :=
  {| data := Json j;
     status_code := status;
     headers := ("Content-Type", "application/json") :: security_headers |}.

(** The cases of a request that is not for the static folder, each with
    what the application [set_debug d (app e)] answers in world [w]. *)
Inductive request_case (d : bool) (w : World) (req : Request)
    : list LogRecord * (exception + Response) → Prop :=
| case_not_found :
    ¬ In (path req) defined_paths →
    request_case d w req ([], inr (json_response not_found_body 404))
| case_options :
    In (path req) defined_paths → method req = "OPTIONS" →
    request_case d w req ([], inr (secured (options_response w)))
| case_not_allowed :
    In (path req) defined_paths →
    ¬ In (method req) ["GET"; "HEAD"; "OPTIONS"] →
    request_case d w req
      ([], inr (secured (get_response w (MethodNotAllowed ["GET"; "OPTIONS"; "HEAD"]))))
| case_fault f :
    In (path req) defined_paths → In (method req) ["GET"; "HEAD"] →
    raises w = Some f →
    request_case d w req
      (if d then (view_log (path req), inl (Fault f))
       else (view_log (path req) ++ internal_error_log req (Fault f),
             inr (json_response internal_error_body 500)))
| case_health_check :
    path req = "/health" → In (method req) ["GET"; "HEAD"] → raises w = None →
    request_case d w req
      ([], inr (json_response
         (JDict [("status", JStr "healthy");
                 ("timestamp", JStr (Py.isoformat (utcnow w)));
                 ("version", JStr (default "1.0.0" (environ w !! "APP_VERSION")))])
         200))
| case_readiness_check :
    path req = "/ready" → In (method req) ["GET"; "HEAD"] → raises w = None →
    request_case d w req
      ([], inr (json_response
         (JDict [("status", JStr "ready");
                 ("timestamp", JStr (Py.isoformat (utcnow w)))])
         200))
| case_index :
    path req = "/" → In (method req) ["GET"; "HEAD"] → raises w = None →
    request_case d w req
      ([], inr (json_response
         (JDict [("message", JStr "Secure CI/CD Pipeline Demo");
                 ("version", JStr (default "1.0.0" (environ w !! "APP_VERSION")));
                 ("environment",
                  JStr (default "development" (environ w !! "ENVIRONMENT")))])
         200))
| case_get_data :
    path req = "/api/data" → In (method req) ["GET"; "HEAD"] → raises w = None →
    request_case d w req
      ([{| levelname := Py.INFO; msg := "Data endpoint accessed"; exc_info := None |}],
       inr (json_response
         (JDict [("data", JList [JDict [("id", JInt 1); ("name", JStr "Item 1")];
                                 JDict [("id", JInt 2); ("name", JStr "Item 2")];
                                 JDict [("id", JInt 3); ("name", JStr "Item 3")]]);
                 ("timestamp", JStr (Py.isoformat (utcnow w)))])
         200)).

Example int_8080 : Py.int_of_str "8080" = Some 8080.
Proof. reflexivity. Qed.

Example int_spaces_sign : Py.int_of_str "  +8_080 " = Some 8080.
Proof. reflexivity. Qed.

Example int_bad : Py.int_of_str "80a" = None /\ Py.int_of_str "" = None
  /\ Py.int_of_str "8__0" = None /\ Py.int_of_str "80_" = None
  /\ Py.int_of_str "- 5" = None /\ Py.int_of_str "8 0" = None.
Proof. repeat split; reflexivity. Qed.

Example int_signed : Py.int_of_str "-12" = Some (-12) /\ Py.int_of_str "+12" = Some 12.
Proof. split; reflexivity. Qed.

(** The separators 0x1C..0x1F are white space for [str.isspace], not for
    [int()]. *)
Example int_separators :
  Py.int_of_str (String "028" "80") = None ∧ Py.int_of_str (String "031" "80") = None
  ∧ Py.int_of_str (String "011" "80 ") = Some 80.
Proof. repeat split; reflexivity. Qed.

Example repr_ex :
  Py.repr "http" = String "039" "http'"
  ∧ Py.repr (String "009" "it's") = String "034" (String "092" ("tit's" +:+ String "034" "")).
Proof. split; vm_compute; reflexivity. Qed.

Example fault_str_ex :
  fault_str (ValueError "80a") = "invalid literal for int() with base 10: '80a'".
Proof. vm_compute. reflexivity. Qed.

Example iso_ex :
  Py.isoformat {| Py.year := 2024; Py.month := 1; Py.day := 2; Py.hour := 3;
                  Py.minute := 4; Py.second := 5; Py.microsecond := 0 |}
  = "2024-01-02T03:04:05".
Proof. vm_compute. reflexivity. Qed.

Example iso_ex_us :
  Py.isoformat {| Py.year := 2024; Py.month := 11; Py.day := 22; Py.hour := 13;
                  Py.minute := 44; Py.second := 55; Py.microsecond := 6 |}
  = "2024-11-22T13:44:55.000006".
Proof. vm_compute. reflexivity. Qed.

(** The model on some requests, in a world with an empty static folder. *)

Example options_health :
  (handle (app ∅) (Sample.world ∅ None) (Sample.request "OPTIONS" "/health")).2
  = inr {| data := Data ""; status_code := 200;
           headers := [("Content-Type", "text/html; charset=utf-8");
                       ("Allow", "GET, OPTIONS, HEAD")] ++ security_headers |}.
Proof. vm_compute. reflexivity. Qed.

Example head_ready :
  (handle (app ∅) (Sample.world ∅ None) (Sample.request "HEAD" "/ready")).2
  = inr (json_response
           (JDict [("status", JStr "ready");
                   ("timestamp", JStr "2024-01-02T03:04:05.000678")]) 200).
Proof. vm_compute. reflexivity. Qed.

Example static_missing :
  handle (app ∅) (Sample.world ∅ None) (Sample.request "GET" "/static/app.css")
  = ([], inr (json_response not_found_body 404)).
Proof. vm_compute. reflexivity. Qed.

Example static_found :
  (handle (app ∅) (Sample.other_world ∅ None) (Sample.request "GET" "/static/app.css")).2
  = inr {| data := Data "app.css"; status_code := 200; headers := security_headers |}.
Proof. vm_compute. reflexivity. Qed.

Example post_static :
  status_code <$>
    match (handle (app ∅) (Sample.world ∅ None) (Sample.request "POST" "/static/app.css")).2 with
    | inr response => Some response
    | inl _ => None
    end = Some 405.
Proof. vm_compute. reflexivity. Qed.

Example debug_propagates :
  handle (app {["FLASK_DEBUG" := "1"]}) (Sample.world ∅ (Some (Error "boom")))
    (Sample.request "GET" "/")
  = ([], inl (Fault (Error "boom"))).
Proof. vm_compute. reflexivity. Qed.

(** A view that fails has logged before: the record of [get_data] comes
    first, then the two of the 500 answer. *)
Example data_fails :
  handle (app ∅) (Sample.world ∅ (Some (Error "boom"))) (Sample.request "GET" "/api/data")
  = ([{| levelname := Py.INFO; msg := "Data endpoint accessed"; exc_info := None |};
      {| levelname := Py.ERROR; msg := "Exception on /api/data [GET]";
         exc_info := Some (Fault (Error "boom")) |};
      {| levelname := Py.ERROR;
         msg := "Internal error: 500 Internal Server Error: The server encountered an internal error and was unable to complete your request. Either the server is overloaded or there is an error in the application.";
         exc_info := None |}],
     inr (json_response internal_error_body 500)).
Proof. vm_compute. reflexivity. Qed.

Example headers_overwritten :
  getlist
    (set [("x-frame-options", "SAMEORIGIN"); ("Server", "gunicorn");
          ("X-FRAME-OPTIONS", "ALLOWALL")] "X-Frame-Options" "DENY")
    "X-Frame-Options" = ["DENY"].
Proof. vm_compute. reflexivity. Qed.

(** * Properties *)

(** ** Header lists *)

Section headers.
Implicit Types (h : Headers) (k v : string).

Lemma key_eqb_refl k : key_eqb k k = true.
Proof. apply String.eqb_refl. Qed.

Lemma key_eqb_trans_false k1 k2 k3 :
  key_eqb k1 k2 = true → key_eqb k3 k2 = false → key_eqb k1 k3 = false.
Proof.
  unfold key_eqb. rewrite String.eqb_eq, !String.eqb_neq. congruence.
Qed.

Lemma getlist_nil k : getlist [] k = [].
Proof. reflexivity. Qed.

Lemma getlist_cons_eq h k k' v :
  key_eqb k' k = true → getlist ((k', v) :: h) k = v :: getlist h k.
Proof.
  intros Hk. unfold getlist. rewrite filter_cons_True by exact Hk. reflexivity.
Qed.

Lemma getlist_cons_ne h k k' v :
  key_eqb k' k = false → getlist ((k', v) :: h) k = getlist h k.
Proof.
  intros Hk. unfold getlist. rewrite filter_cons_False; [reflexivity|].
  simpl. congruence.
Qed.

(** Nothing is left under a removed key, and the other keys keep their
    values. *)
Lemma getlist_remove_eq h k : getlist (remove k h) k = [].
Proof.
  induction h as [|[k' v'] h IH]; [reflexivity|].
  unfold remove in *. destruct (key_eqb k' k) eqn:Hk.
  - rewrite filter_cons_False; [exact IH|]. simpl. congruence.
  - rewrite filter_cons_True by exact Hk. rewrite getlist_cons_ne; auto.
Qed.

Lemma getlist_remove_ne h k k' :
  key_eqb k' k = false → getlist (remove k h) k' = getlist h k'.
Proof.
  intros Hne. induction h as [|[k0 v0] h IH]; [reflexivity|].
  unfold remove in *. destruct (key_eqb k0 k) eqn:Hk.
  - rewrite filter_cons_False by (simpl; congruence).
    rewrite getlist_cons_ne; [exact IH|].
    eapply key_eqb_trans_false; eauto.
  - rewrite filter_cons_True by exact Hk.
    destruct (key_eqb k0 k') eqn:Hk'.
    + rewrite !getlist_cons_eq by exact Hk'. f_equal. exact IH.
    + rewrite !getlist_cons_ne by exact Hk'. exact IH.
Qed.

(** After [h[k] = v] the key holds [v] and nothing else. *)
Lemma getlist_set_eq h k v : getlist (set h k v) k = [v].
Proof.
  induction h as [|[k' v'] h IH]; simpl.
  - rewrite getlist_cons_eq by apply key_eqb_refl. reflexivity.
  - destruct (key_eqb k' k) eqn:Hk.
    + rewrite getlist_cons_eq by apply key_eqb_refl.
      rewrite getlist_remove_eq. reflexivity.
    + rewrite getlist_cons_ne by exact Hk. exact IH.
Qed.

(** ... and every other key is as before. *)
Lemma getlist_set_ne h k k' v :
  key_eqb k' k = false → getlist (set h k v) k' = getlist h k'.
Proof.
  intros Hne. induction h as [|[k0 v0] h IH]; simpl.
  - rewrite getlist_cons_ne; [reflexivity|].
    unfold key_eqb in *. rewrite String.eqb_neq in *. congruence.
  - destruct (key_eqb k0 k) eqn:Hk.
    + assert (key_eqb k0 k' = false) as Hk0
        by (eapply key_eqb_trans_false; eauto).
      assert (key_eqb k k' = false) as Hkk.
      { unfold key_eqb in *. rewrite String.eqb_neq in *. congruence. }
      rewrite !getlist_cons_ne by assumption.
      apply getlist_remove_ne, Hne.
    + destruct (key_eqb k0 k') eqn:Hk'.
      * rewrite !getlist_cons_eq by exact Hk'. f_equal. exact IH.
      * rewrite !getlist_cons_ne by exact Hk'. exact IH.
Qed.

End headers.

(** ** The security headers *)

Lemma add_security_headers_eq response ctx :
  add_security_headers response ctx = ([], inr (secured response)).
Proof. reflexivity. Qed.

Lemma secured_carries response : carries_security_headers (secured response).
Proof.
  unfold carries_security_headers, security_headers, secured; simpl.
  repeat constructor; simpl;
    repeat (rewrite getlist_set_ne by reflexivity);
    apply getlist_set_eq.
Qed.

Section dispatch.
Variable a : App.
Hypothesis after_request_a : after_request_funcs a = [add_security_headers].

Lemma finalize_request_eq r from_error_handler ctx :
  finalize_request a r from_error_handler ctx
  = ([], inr (secured (make_response (world ctx) r))).
Proof.
  unfold finalize_request. rewrite after_request_a. reflexivity.
Qed.

Lemma full_dispatch_request_secured ctx log response :
  full_dispatch_request a ctx = (log, inr response) →
  ∃ r, response = secured (make_response (world ctx) r).
Proof.
  unfold full_dispatch_request, mbind, view_bind.
  destruct (try_except _ _ ctx) as [log0 [e|r]]; [discriminate|].
  rewrite finalize_request_eq. intros [= _ <-]. eauto.
Qed.

Lemma handle_exception_secured e ctx log response :
  handle_exception a e ctx = (log, inr response) →
  ∃ r, response = secured (make_response (world ctx) r).
Proof.
  unfold handle_exception. destruct (testing a || debug a); [discriminate|].
  unfold mbind, view_bind; simpl.
  match goal with
  | |- context [let (_, _) := ?m ctx in _] => destruct (m ctx) as [log0 [e0|r]]
  end; [discriminate|].
  rewrite finalize_request_eq. intros [= _ <-]. eauto.
Qed.

Lemma wsgi_app_secured ctx log response :
  wsgi_app a ctx = (log, inr response) → carries_security_headers response.
Proof.
  unfold wsgi_app, try_except.
  destruct (full_dispatch_request a ctx) as [log0 [e|r]] eqn:Hd.
  - destruct (handle_exception a e ctx) as [log1 [e1|r1]] eqn:He; [discriminate|].
    intros [= _ <-]. apply handle_exception_secured in He as [r ->].
    apply secured_carries.
  - intros [= _ <-]. apply full_dispatch_request_secured in Hd as [r' ->].
    apply secured_carries.
Qed.

Lemma handle_secured w req log response :
  handle a w req = (log, inr response) → carries_security_headers response.
Proof. unfold handle. apply wsgi_app_secured. Qed.

End dispatch.

(** ** The shape of timestamps *)

Lemma matches_app pat1 pat2 s1 s2 :
  matches pat1 s1 = true → matches pat2 s2 = true →
  matches (pat1 ++ pat2) (s1 +:+ s2) = true.
Proof.
  revert s1. induction pat1 as [|[a|] pat1 IH]; intros [|c s1]; simpl;
    try discriminate; auto.
  - rewrite !andb_true_iff. intros [-> H1] H2. auto.
  - rewrite !andb_true_iff. intros [-> H1] H2. auto.
Qed.

Lemma matches_lit c : matches (lit c) (String c "") = true.
Proof. simpl. rewrite Ascii.eqb_refl. reflexivity. Qed.

Lemma is_digit_pretty_N_char x : Py.is_digit (pretty_N_char x) = true.
Proof. unfold pretty_N_char. repeat case_match; reflexivity. Qed.

(** The digits of [x] in front of [s]: as many more positions as [x] has
    digits, at most [k] when [x < 10 ^ k]. *)
Lemma pretty_N_go_matches x : ∀ (k : nat) s (j : nat),
  (x < 10 ^ N.of_nat k)%N →
  matches (digits j) s = true →
  ∃ i : nat, (i ≤ k)%nat ∧ matches (digits (i + j)) (pretty_N_go x s) = true.
Proof.
  induction (N.lt_wf_0 x) as [x _ IH]; intros k s j Hx Hs.
  destruct (decide (x = 0)%N) as [->|Hpos].
  - exists 0%nat. split; [lia|]. rewrite pretty_N_go_0. exact Hs.
  - rewrite pretty_N_go_step by lia.
    destruct k as [|k]; [simpl in Hx; lia|].
    destruct (IH (x `div` 10)%N) with (k := k)
      (s := String (pretty_N_char (x `mod` 10)) s) (j := S j) as (i & Hi & Hm).
    + apply N.div_lt; lia.
    + apply N.Div0.div_lt_upper_bound.
      replace (10 * 10 ^ N.of_nat k)%N with (10 ^ N.of_nat (S k))%N; [exact Hx|].
      rewrite Nat2N.inj_succ, N.pow_succ_r'. reflexivity.
    + simpl. rewrite is_digit_pretty_N_char. exact Hs.
    + exists (S i). split; [lia|].
      replace (S i + j)%nat with (i + S j)%nat by lia. exact Hm.
Qed.

Lemma matches_length pat s : matches pat s = true → String.length s = length pat.
Proof.
  revert s. induction pat as [|[a|] pat IH]; intros [|c s]; simpl;
    try discriminate; auto; rewrite andb_true_iff; intros [_ H]; f_equal; auto.
Qed.

Lemma matches_zeros n : matches (digits n) (String.concat "" (replicate n "0")) = true.
Proof. induction n as [|n IH]; [reflexivity|]. simpl. destruct n; exact IH. Qed.

Lemma pretty_N_matches n (k : nat) :
  (n < 10 ^ N.of_nat k)%N → (1 ≤ k)%nat →
  ∃ i : nat, (i ≤ k)%nat ∧ matches (digits i) (pretty n) = true.
Proof.
  intros Hn Hk. unfold pretty, pretty_N. case_decide.
  - exists 1%nat. split; [exact Hk|reflexivity].
  - destruct (pretty_N_go_matches n k "" 0 Hn eq_refl) as (i & Hi & Hm).
    exists i. split; [exact Hi|]. rewrite Nat.add_0_r in Hm. exact Hm.
Qed.

(** ["%0<w>d"] of a number below [10 ^ w] is [w] digits. *)
Lemma zfill_matches (w : nat) n :
  (n < 10 ^ N.of_nat w)%N → (1 ≤ w)%nat →
  matches (digits w) (Py.zfill w n) = true.
Proof.
  intros Hn Hw. destruct (pretty_N_matches n w Hn Hw) as (i & Hi & Hm).
  unfold Py.zfill. rewrite (matches_length _ _ Hm).
  unfold digits at 2. rewrite length_replicate.
  replace (digits w) with (digits (w - i) ++ digits i).
  - apply matches_app; [apply matches_zeros|exact Hm].
  - unfold digits. rewrite <- replicate_add. f_equal. lia.
Qed.

(** The ISO format of a valid [datetime] has the ISO 8601 shape. *)
Lemma isoformat_shape d : Py.valid_datetime d → iso8601_shape (Py.isoformat d) = true.
Proof.
  intros (Hy & Hmo & Hd & Hh & Hmi & Hs & Hus).
  assert (∀ pat tail, matches pat tail = true →
    matches (iso8601_seconds ++ pat)
      (Py.zfill 4 (Py.year d) +:+ "-" +:+ Py.zfill 2 (Py.month d) +:+ "-" +:+
       Py.zfill 2 (Py.day d) +:+ "T" +:+ Py.zfill 2 (Py.hour d) +:+ ":" +:+
       Py.zfill 2 (Py.minute d) +:+ ":" +:+ Py.zfill 2 (Py.second d) +:+ tail) = true)
    as Hsec.
  { intros pat tail Htail. unfold iso8601_seconds. rewrite <- !app_assoc.
    repeat (apply matches_app;
            [first [apply matches_lit | apply zfill_matches; simpl; lia]|]).
    exact Htail. }
  unfold iso8601_shape, Py.isoformat. apply orb_true_iff.
  destruct (Py.microsecond d =? 0)%N.
  - left. rewrite <- (app_nil_r iso8601_seconds). apply Hsec. reflexivity.
  - right. apply Hsec.
    apply (matches_app (lit ".") (digits 6) (String "." "")); [apply matches_lit|].
    apply zfill_matches; simpl; lia.
Qed.

Example isoformat_shape_now : iso8601_shape (Py.isoformat Sample.now) = true.
Proof. vm_compute. reflexivity. Qed.

(** ** [int()] reads back what decimal printing writes *)

Lemma digit_value_pretty_N_char x :
  (x < 10)%N → Py.digit_value (pretty_N_char x) = Some (Z.of_N x).
Proof.
  intros Hx.
  assert (x = 0 ∨ x = 1 ∨ x = 2 ∨ x = 3 ∨ x = 4 ∨ x = 5 ∨ x = 6 ∨ x = 7 ∨ x = 8 ∨ x = 9)%N
    as H by lia.
  repeat (destruct H as [->|H]; [reflexivity|]). subst. reflexivity.
Qed.

(** Reading the digits of [x] in front of [s] shifts the value read so far
    by as many places and adds [x]. *)
Lemma int_digits_pretty_N_go x : ∀ s,
  ∃ k : nat, ∀ acc,
    Py.int_digits acc (pretty_N_go x s)
    = Py.int_digits (acc * 10 ^ Z.of_nat k + Z.of_N x) s.
Proof.
  induction (N.lt_wf_0 x) as [x _ IH]; intros s.
  destruct (decide (x = 0)%N) as [->|Hpos].
  - exists 0%nat. intros acc. rewrite pretty_N_go_0. f_equal. simpl. lia.
  - rewrite pretty_N_go_step by lia.
    destruct (IH (x `div` 10)%N) with (s := String (pretty_N_char (x `mod` 10)) s)
      as [k Hk].
    { apply N.div_lt; lia. }
    exists (S k). intros acc. rewrite Hk. simpl.
    rewrite digit_value_pretty_N_char by (apply N.mod_lt; lia).
    f_equal. rewrite Nat2Z.inj_succ, Z.pow_succ_r by lia.
    rewrite (N.div_mod x 10) at 3 by lia.
    rewrite N2Z.inj_add, N2Z.inj_mul. simpl Z.of_N. ring.
Qed.

Lemma pretty_N_go_nonempty x : ∀ s, s ≠ "" → pretty_N_go x s ≠ "".
Proof.
  induction (N.lt_wf_0 x) as [x _ IH]; intros s Hs.
  destruct (decide (x = 0)%N) as [->|Hpos].
  - rewrite pretty_N_go_0. exact Hs.
  - rewrite pretty_N_go_step by lia. apply IH; [apply N.div_lt; lia|discriminate].
Qed.

(** A string of digits is read as it stands: no white space to skip, no
    sign. *)
Lemma int_of_str_digits n s :
  matches (digits (S n)) s = true →
  Py.int_of_str s = Py.int_digits 0 s.
Proof.
  destruct s as [|c s]; [discriminate|]. simpl.
  rewrite andb_true_iff. intros [Hc _].
  unfold Py.is_digit in Hc. destruct (Py.digit_value c) as [v|] eqn:Hv; [|discriminate].
  assert (Py.is_space c = false ∧ c ≠ "-"%char ∧ c ≠ "+"%char) as (Hsp & Hm & Hp).
  { unfold Py.digit_value in Hv. unfold Py.is_space.
    destruct (_ && _)%N eqn:Hr in Hv; [|discriminate].
    split; [|split; intros ->; discriminate Hr].
    apply andb_true_iff in Hr as [H1 H2].
    apply N.leb_le in H1, H2.
    repeat (apply orb_false_iff; split); try apply andb_false_iff;
      rewrite ?N.leb_gt, ?N.eqb_neq; lia. }
  unfold Py.int_of_str. simpl. rewrite Hsp, Hv.
  rewrite !(proj2 (Ascii.eqb_neq _ _)) by assumption. reflexivity.
Qed.

Lemma int_of_str_pretty (n : N) : Py.int_of_str (pretty n) = Some (Z.of_N n).
Proof.
  unfold pretty, pretty_N. case_decide as Hn; [subst; reflexivity|].
  destruct (pretty_N_go_matches n (N.to_nat n) "" 0) as (i & _ & Hm); [|reflexivity|].
  { rewrite N2Nat.id. apply N.pow_gt_lin_r. lia. }
  rewrite Nat.add_0_r in Hm.
  destruct i as [|i].
  { exfalso. destruct (pretty_N_go n "") eqn:E; [|discriminate].
    rewrite pretty_N_go_step in E by lia.
    eapply pretty_N_go_nonempty; [|exact E]. discriminate. }
  rewrite (int_of_str_digits i _ Hm).
  destruct (int_digits_pretty_N_go n "") as [k ->]. reflexivity.
Qed.

(** ** Dispatch *)

Lemma bind_ask {A} (k : Ctx → View A) ctx : (ask ≫= k) ctx = k ctx ctx.
Proof.
  unfold mbind, view_bind, ask. destruct (k ctx ctx) as [log r]. reflexivity.
Qed.

(** [dispatch_request] case by case. *)
Lemma dispatch_request_eq a ctx :
  dispatch_request a ctx =
  match match_rules (url_map a) (method (request ctx)) (path (request ctx)) [] with
  | inl routing_exception => ([], inl routing_exception)
  | inr (r, view_args) =>
      if provide_automatic_options r && String.eqb (method (request ctx)) "OPTIONS"
      then
        match make_default_options_response a ctx with
        | (log, inl e) => (log, inl e)
        | (log, inr response) => (log, inr (Rv response))
        end
      else
        match assoc String.eqb (endpoint r) (view_functions a) with
        | None => ([], inl (Fault (Error (endpoint r))))
        | Some view_func =>
            match view_func view_args ctx with
            | (log, inl e) => (log, inl e)
            | (log, inr rv) =>
                match raises (world ctx) with
                | Some f => (log, inl (Fault f))
                | None => (log, inr rv)
                end
            end
        end
  end.
Proof.
  unfold dispatch_request. rewrite bind_ask.
  destruct (match_rules _ _ _ _) as [e|[r view_args]]; [reflexivity|].
  destruct (_ && _); [reflexivity|].
  destruct (assoc _ _ _) as [view_func|]; [|reflexivity].
  unfold mbind, view_bind.
  destruct (view_func view_args ctx) as [log [e|rv]]; [reflexivity|].
  destruct (raises _); simpl; rewrite app_nil_r; reflexivity.
Qed.

(** A rule that [match_rules] answers with is one of the rules. *)
Lemma match_rules_In rules m p acc r view_args :
  match_rules rules m p acc = inr (r, view_args) → In r rules.
Proof.
  revert acc. induction rules as [|r0 rules IH]; intros acc; simpl.
  - destruct acc; discriminate.
  - destruct (match_path (rule r0) p).
    + destruct (has_method m (methods r0)).
      * intros [= -> _]. now left.
      * intros H. right. eapply IH, H.
    + intros H. right. eapply IH, H.
Qed.

(** The application object with its [debug] flag set either way: the URL
    map, the views, the handlers and the hook do not depend on it. *)
Lemma app_set_debug e : app e = set_debug (get_debug_flag e) (app e).
Proof. reflexivity. Qed.

Lemma after_request_app e d :
  after_request_funcs (set_debug d (app e)) = [add_security_headers].
Proof. reflexivity. Qed.

(** The URL map after the module level of [app.py] has run. *)
Lemma url_map_app e d :
  url_map (set_debug d (app e))
  = map (λ '(p, name),
           {| rule := p; methods := ["GET"; "OPTIONS"; "HEAD"]; endpoint := name;
              provide_automatic_options := true |})
        [(PathArg "/static/", "static");
         (Static "/health", "health_check");
         (Static "/ready", "readiness_check");
         (Static "/", "index");
         (Static "/api/data", "get_data")].
Proof. reflexivity. Qed.

(** No rule of the application accepts a path that is none of the four and
    is not under [/static/]. *)
Lemma match_rules_unmatched e d m p :
  ¬ In p defined_paths →
  match_path (PathArg "/static/") p = None →
  match_rules (url_map (set_debug d (app e))) m p [] = inl NotFound.
Proof.
  intros Hp Hs. unfold defined_paths in Hp; simpl in Hp.
  cbn -[match_path]. rewrite Hs. unfold match_path.
  rewrite !(proj2 (String.eqb_neq _ p)) by tauto. reflexivity.
Qed.

(** Every endpoint of the URL map has its view function. *)
Lemma view_function_defined e d r :
  In r (url_map (set_debug d (app e))) →
  is_Some (assoc String.eqb (endpoint r) (view_functions (set_debug d (app e)))).
Proof.
  rewrite url_map_app. simpl. intros H.
  repeat (destruct H as [<-|H]; [eexists; reflexivity|]). destruct H.
Qed.

(** ** The entry point *)

Lemma main_started_inv e srv :
  main e = Started srv →
  application srv = set_debug false (app e) ∧ host srv = "0.0.0.0" ∧
  match e !! "PORT" with
  | None => port srv = 8080
  | Some s => Py.int_of_str s = Some (port srv)
  end.
Proof.
  unfold main, Py.getenv_or, Py.int, run.
  destruct (e !! "PORT") as [s|].
  - destruct (Py.int_of_str s) as [n|]; [|discriminate].
    case_decide; [discriminate|]. intros [= <-]. auto.
  - case_decide; [discriminate|]. intros [= <-]. auto.
Qed.

Lemma main_default_port e :
  e !! "PORT" = None →
  e !! "FLASK_RUN_FROM_CLI" ≠ Some "true" →
  main e = Started {| application := set_debug false (app e);
                      host := "0.0.0.0"; port := 8080 |}.
Proof.
  intros Hport Hcli. unfold main, Py.getenv_or, Py.int, run. rewrite Hport.
  case_decide; [contradiction|reflexivity].
Qed.

Lemma main_valid_port e s n :
  e !! "PORT" = Some s →
  Py.int_of_str s = Some n →
  e !! "FLASK_RUN_FROM_CLI" ≠ Some "true" →
  main e = Started {| application := set_debug false (app e);
                      host := "0.0.0.0"; port := n |}.
Proof.
  intros Hport Hint Hcli. unfold main, Py.getenv_or, Py.int, run.
  rewrite Hport, Hint. case_decide; [contradiction|reflexivity].
Qed.

Lemma main_invalid_port e s :
  e !! "PORT" = Some s →
  Py.int_of_str s = None →
  main e = Raised (Fault (ValueError s)).
Proof.
  intros Hport Hint. unfold main, Py.getenv_or, Py.int.
  rewrite Hport, Hint. reflexivity.
Qed.

(** ** What [handle] answers

    In all of these the application is [set_debug d (app e)]: the object of
    [app.py] with its [debug] flag either way. *)

Ltac unfold_handle :=
  unfold handle, wsgi_app, full_dispatch_request, try_except, mbind, view_bind;
  rewrite dispatch_request_eq; cbn [request world root_level].

Ltac by_cases_on_request w req :=
  destruct w as [env now f ssf ah], req as [m p qs hs body];
  simpl in *; subst.

Lemma handle_unmatched e d w req :
  ¬ In (path req) defined_paths →
  match_path (PathArg "/static/") (path req) = None →
  handle (set_debug d (app e)) w req = ([], inr (json_response not_found_body 404)).
Proof.
  intros Hp Hs. unfold_handle.
  rewrite match_rules_unmatched by assumption. reflexivity.
Qed.

Lemma handle_method_not_allowed e d w req :
  In (path req) defined_paths →
  ¬ In (method req) ["GET"; "HEAD"; "OPTIONS"] →
  handle (set_debug d (app e)) w req
  = ([], inr (secured (get_response w (MethodNotAllowed ["GET"; "OPTIONS"; "HEAD"])))).
Proof.
  intros Hp Hm. unfold_handle.
  assert (has_method (method req) ["GET"; "OPTIONS"; "HEAD"] = false) as Hhas.
  { simpl in Hm. unfold has_method; simpl.
    rewrite !(proj2 (String.eqb_neq (method req) _)) by (intros E; rewrite E in Hm; tauto).
    reflexivity. }
  rewrite url_map_app.
  simpl in Hp. destruct Hp as [Hp|[Hp|[Hp|[Hp|[]]]]]; rewrite <- Hp;
    cbn -[has_method]; rewrite Hhas; reflexivity.
Qed.

Lemma handle_health_check e d w req :
  method req = "GET" → path req = "/health" → raises w = None →
  handle (set_debug d (app e)) w req
  = ([], inr (json_response
       (JDict [("status", JStr "healthy");
               ("timestamp", JStr (Py.isoformat (utcnow w)));
               ("version", JStr (default "1.0.0" (environ w !! "APP_VERSION")))])
       200)).
Proof. intros Hm Hp Hf. by_cases_on_request w req. reflexivity. Qed.

Lemma handle_readiness_check e d w req :
  method req = "GET" → path req = "/ready" → raises w = None →
  handle (set_debug d (app e)) w req
  = ([], inr (json_response
       (JDict [("status", JStr "ready");
               ("timestamp", JStr (Py.isoformat (utcnow w)))])
       200)).
Proof. intros Hm Hp Hf. by_cases_on_request w req. reflexivity. Qed.

Lemma handle_index e d w req :
  method req = "GET" → path req = "/" → raises w = None →
  handle (set_debug d (app e)) w req
  = ([], inr (json_response
       (JDict [("message", JStr "Secure CI/CD Pipeline Demo");
               ("version", JStr (default "1.0.0" (environ w !! "APP_VERSION")));
               ("environment", JStr (default "development" (environ w !! "ENVIRONMENT")))])
       200)).
Proof. intros Hm Hp Hf. by_cases_on_request w req. reflexivity. Qed.

Lemma handle_get_data e d w req :
  method req = "GET" → path req = "/api/data" → raises w = None →
  handle (set_debug d (app e)) w req
  = ([{| levelname := Py.INFO; msg := "Data endpoint accessed"; exc_info := None |}],
     inr (json_response
       (JDict [("data", JList [JDict [("id", JInt 1); ("name", JStr "Item 1")];
                               JDict [("id", JInt 2); ("name", JStr "Item 2")];
                               JDict [("id", JInt 3); ("name", JStr "Item 3")]]);
               ("timestamp", JStr (Py.isoformat (utcnow w)))])
       200)).
Proof. intros Hm Hp Hf. by_cases_on_request w req. reflexivity. Qed.

Lemma handle_exception_eq e exc ctx :
  root_level ctx = Py.INFO →
  handle_exception (set_debug false (app e)) exc ctx
  = (internal_error_log (request ctx) exc,
     inr (json_response internal_error_body 500)).
Proof.
  intros Hl. destruct ctx as [w req l]; simpl in *; subst. reflexivity.
Qed.

(** A view that raises at its [return] statement: what it has logged
    stays, and the exception is handed on, or logged and answered 500. *)
Lemma handle_view_fault e d w req flt :
  raises w = Some flt →
  In (path req) defined_paths → In (method req) ["GET"; "HEAD"] →
  handle (set_debug d (app e)) w req
  = if d then (view_log (path req), inl (Fault flt))
    else (view_log (path req) ++ internal_error_log req (Fault flt),
          inr (json_response internal_error_body 500)).
Proof.
  intros Hf Hp Hm. simpl in Hp, Hm.
  destruct Hp as [Hp|[Hp|[Hp|[Hp|[]]]]]; symmetry in Hp;
    destruct Hm as [Hm|[Hm|[]]]; symmetry in Hm;
    by_cases_on_request w req; destruct d; reflexivity.
Qed.

(** A GET request for one of the four paths reaches its view function. *)
Lemma match_rules_defined e d p :
  In p defined_paths →
  ∃ r, match_rules (url_map (set_debug d (app e))) "GET" p [] = inr (r, []).
Proof.
  rewrite url_map_app. simpl.
  intros [<-|[<-|[<-|[<-|[]]]]]; eexists; reflexivity.
Qed.

(** * The claims *)

(** ** C1: the security headers *)

(** C1.  Every outgoing response carries the four security headers, each
    with exactly its value, whatever the headers were before.  First, the
    [after_request] function: it never fails, leaves body and status alone
    and, whatever headers the response had, leaves each of the four names
    with its one value.  Second, any response the application object
    produces carries them, whichever handler produced it.  Third, the
    server that [main] starts answers every request, also the 404, 405 and
    500 cases, and the answer carries them. *)
Theorem security_headers_on_every_response :
  (∀ response ctx, ∃ response',
     add_security_headers response ctx = ([], inr response') ∧
     data response' = data response ∧
     status_code response' = status_code response ∧
     carries_security_headers response') ∧
  (∀ e d w req log response,
     handle (set_debug d (app e)) w req = (log, inr response) →
     carries_security_headers response) ∧
  (∀ e srv w req,
     main e = Started srv →
     ∃ log response,
       handle (application srv) w req = (log, inr response) ∧
       carries_security_headers response).
Proof.
  split; [|split].
  - intros response ctx. exists (secured response).
    split; [reflexivity|]. split; [reflexivity|]. split; [reflexivity|].
    apply secured_carries.
  - intros e d w req log response.
    apply handle_secured, after_request_app.
  - intros e srv w req Hmain.
    apply main_started_inv in Hmain as (-> & _ & _).
    assert (∃ log response,
      handle (set_debug false (app e)) w req = (log, inr response)) as (log & response & H).
    { unfold handle, wsgi_app, try_except.
      destruct (full_dispatch_request _ _) as [log0 [exc|response]]; [|eauto].
      rewrite handle_exception_eq by reflexivity. eauto. }
    exists log, response. split; [exact H|].
    revert H. apply handle_secured, after_request_app.
Qed.

Lemma security_headers_on_every_response_witness :
  main ∅ = Started {| application := set_debug false (app ∅);
                      host := "0.0.0.0"; port := 8080 |} ∧
  ∃ log response,
    handle (set_debug false (app ∅)) (Sample.world ∅ (Some (Error "boom")))
      (Sample.request "GET" "/api/data") = (log, inr response) ∧
    carries_security_headers response.
Proof.
  split; [reflexivity|].
  exact (proj2 (proj2 security_headers_on_every_response) ∅
           {| application := set_debug false (app ∅); host := "0.0.0.0"; port := 8080 |}
           (Sample.world ∅ (Some (Error "boom")))
           (Sample.request "GET" "/api/data") eq_refl).
Defined.

(** ** C2: requests that match no route *)

(** C2 as it is stated fails: POST /health is a request that matches none
    of the four routes, and it is answered 405 with werkzeug's page for
    Method Not Allowed, not 404 with the JSON body. *)
Lemma post_health_is_not_404 :
  let req := Sample.request "POST" "/health" in
  ¬ (method req = "GET" ∧ path req ∈ defined_paths) ∧
  ∃ response,
    handle (app ∅) (Sample.world ∅ None) req = ([], inr response) ∧
    status_code response = 405 ∧
    status_code response ≠ 404 ∧
    data response ≠ Json not_found_body.
Proof.
  split.
  - intros [Hm _]. discriminate Hm.
  - exists (secured (get_response (Sample.world ∅ None)
                      (MethodNotAllowed ["GET"; "OPTIONS"; "HEAD"]))).
    split; [vm_compute; reflexivity|]. repeat split; discriminate.
Qed.

(** C2, amended.  A request whose path no URL rule accepts, that is, a
    path that is none of the four and is not under the static route, is
    answered 404 with the JSON body of [not_found], whatever its method.
    A request to one of the four paths with a method other than GET, HEAD
    and OPTIONS is answered 405 with the page of the exception.  Paths are
    taken as werkzeug hands them to the URL map, with one leading slash and
    no repeated slash. *)
Theorem unmatched_path_is_404 :
  (∀ e d w req,
     canonical_path (path req) = true →
     path req ∉ defined_paths →
     match_path (PathArg "/static/") (path req) = None →
     ∃ response,
       handle (set_debug d (app e)) w req = ([], inr response) ∧
       status_code response = 404 ∧
       data response = Json (JDict [("error", JStr "Not found"); ("status", JInt 404)])) ∧
  (∀ e d w req,
     path req ∈ defined_paths →
     method req ∉ ["GET"; "HEAD"; "OPTIONS"] →
     ∃ response,
       handle (set_debug d (app e)) w req = ([], inr response) ∧
       status_code response = 405 ∧
       data response = ErrorPage 405 "Method Not Allowed"
                         "The method is not allowed for the requested URL.").
Proof.
  split.
  - intros e d w req _ Hp Hs. rewrite list_elem_of_In in Hp.
    rewrite handle_unmatched by assumption. eauto.
  - intros e d w req Hp Hm. rewrite list_elem_of_In in Hp, Hm.
    rewrite handle_method_not_allowed by assumption. eauto.
Qed.

Lemma unmatched_path_is_404_witness :
  (∃ response,
     handle (set_debug false (app ∅)) (Sample.world ∅ None)
       (Sample.request "GET" "/nonexistent") = ([], inr response) ∧
     status_code response = 404 ∧
     data response = Json (JDict [("error", JStr "Not found"); ("status", JInt 404)])) ∧
  (∃ response,
     handle (set_debug false (app ∅)) (Sample.world ∅ None)
       (Sample.request "DELETE" "/api/data") = ([], inr response) ∧
     status_code response = 405 ∧
     data response = ErrorPage 405 "Method Not Allowed"
                       "The method is not allowed for the requested URL.").
Proof.
  split.
  - apply (proj1 unmatched_path_is_404 ∅ false (Sample.world ∅ None)
             (Sample.request "GET" "/nonexistent")).
    + reflexivity.
    + apply (bool_decide_unpack _). vm_compute. exact I.
    + reflexivity.
  - apply (proj2 unmatched_path_is_404 ∅ false (Sample.world ∅ None)
             (Sample.request "DELETE" "/api/data")).
    + apply (bool_decide_unpack _). vm_compute. exact I.
    + apply (bool_decide_unpack _). vm_compute. exact I.
Defined.

(** ** C3: the health check *)

(** C3.  GET /health (when no exception escapes the view) is answered 200
    with a JSON object of exactly three fields: [status] is "healthy",
    [timestamp] is the ISO format of the clock at the time of the request,
    and [version] is the value of APP_VERSION, or "1.0.0" when the variable
    is not set.  The timestamp of a valid clock value has the shape
    YYYY-MM-DDTHH:MM:SS, with .ffffff after it when the microseconds are
    not zero. *)
Theorem health_check_response e d w req :
  method req = "GET" → path req = "/health" → raises w = None →
  ∃ response timestamp,
    handle (set_debug d (app e)) w req = ([], inr response) ∧
    status_code response = 200 ∧
    data response =
      Json (JDict [("status", JStr "healthy");
                   ("timestamp", JStr timestamp);
                   ("version", JStr match environ w !! "APP_VERSION" with
                                    | Some v => v
                                    | None => "1.0.0"
                                    end)]) ∧
    timestamp = Py.isoformat (utcnow w) ∧
    (Py.valid_datetime (utcnow w) → iso8601_shape timestamp = true).
Proof.
  intros Hm Hp Hf. rewrite handle_health_check by assumption.
  do 2 eexists. split; [reflexivity|]. split; [reflexivity|].
  split; [reflexivity|]. split; [reflexivity|]. apply isoformat_shape.
Qed.

Lemma health_check_response_witness :
  ∃ response,
    handle (set_debug false (app ∅)) (Sample.world {["APP_VERSION" := "2.3.1"]} None)
      (Sample.request "GET" "/health") = ([], inr response) ∧
    status_code response = 200 ∧
    data response =
      Json (JDict [("status", JStr "healthy");
                   ("timestamp", JStr "2024-01-02T03:04:05.000678");
                   ("version", JStr "2.3.1")]) ∧
    iso8601_shape "2024-01-02T03:04:05.000678" = true.
Proof.
  destruct (health_check_response ∅ false
              (Sample.world {["APP_VERSION" := "2.3.1"]} None)
              (Sample.request "GET" "/health") eq_refl eq_refl eq_refl)
    as (response & timestamp & H & Hs & Hd & Ht & Hshape).
  exists response. split; [exact H|]. split; [exact Hs|].
  assert (timestamp = "2024-01-02T03:04:05.000678") as E
    by (rewrite Ht; vm_compute; reflexivity).
  rewrite <- E. split; [rewrite Hd; vm_compute; reflexivity|].
  apply Hshape. vm_compute. repeat split; discriminate.
Defined.

(** ** C4: the data listing *)

(** C4.  GET /api/data (when no exception escapes the view) is answered
    200 with a JSON object of two fields: [data], the list of the three
    fixed items in order, and [timestamp], the ISO format of the clock,
    which has the ISO 8601 shape when the clock value is valid.  The
    request leaves one log record, "Data endpoint accessed" at level INFO.
    The record has no effect on the answer: whatever the level of the root
    logger, and so whether or not the record is emitted, the view returns
    the same value. *)
Theorem get_data_response :
  (∀ e d w req,
     method req = "GET" → path req = "/api/data" → raises w = None →
     ∃ response timestamp,
       handle (set_debug d (app e)) w req
       = ([{| levelname := Py.INFO; msg := "Data endpoint accessed"; exc_info := None |}],
          inr response) ∧
       status_code response = 200 ∧
       data response =
         Json (JDict [("data", JList [JDict [("id", JInt 1); ("name", JStr "Item 1")];
                                      JDict [("id", JInt 2); ("name", JStr "Item 2")];
                                      JDict [("id", JInt 3); ("name", JStr "Item 3")]]);
                      ("timestamp", JStr timestamp)]) ∧
       timestamp = Py.isoformat (utcnow w) ∧
       (Py.valid_datetime (utcnow w) → iso8601_shape timestamp = true)) ∧
  (∀ w req l l',
     (get_data {| world := w; request := req; root_level := l |}).2
     = (get_data {| world := w; request := req; root_level := l' |}).2).
Proof.
  split.
  - intros e d w req Hm Hp Hf. rewrite handle_get_data by assumption.
    do 2 eexists. split; [reflexivity|]. split; [reflexivity|].
    split; [reflexivity|]. split; [reflexivity|]. apply isoformat_shape.
  - intros w req l l'. unfold get_data, logger_info, log, mbind, view_bind. simpl.
    reflexivity.
Qed.

Lemma get_data_response_witness :
  ∃ response,
    handle (set_debug false (app ∅)) (Sample.world ∅ None)
      (Sample.request "GET" "/api/data")
    = ([{| levelname := Py.INFO; msg := "Data endpoint accessed"; exc_info := None |}],
       inr response) ∧
    status_code response = 200 ∧
    data response =
      Json (JDict [("data", JList [JDict [("id", JInt 1); ("name", JStr "Item 1")];
                                   JDict [("id", JInt 2); ("name", JStr "Item 2")];
                                   JDict [("id", JInt 3); ("name", JStr "Item 3")]]);
                   ("timestamp", JStr "2024-01-02T03:04:05.000678")]) ∧
    iso8601_shape "2024-01-02T03:04:05.000678" = true.
Proof.
  destruct (proj1 get_data_response ∅ false (Sample.world ∅ None)
              (Sample.request "GET" "/api/data") eq_refl eq_refl eq_refl)
    as (response & timestamp & H & Hs & Hd & Ht & Hshape).
  exists response. split; [exact H|]. split; [exact Hs|].
  assert (timestamp = "2024-01-02T03:04:05.000678") as E
    by (rewrite Ht; vm_compute; reflexivity).
  rewrite <- E. split; [rewrite Hd; vm_compute; reflexivity|].
  apply Hshape. vm_compute. repeat split; discriminate.
Defined.

(** ** C5: exceptions that nothing handles *)

(** C5.  On the server that [main] starts, an exception that escapes the
    handling of a request is answered 500 with the JSON body of
    [internal_error], and the log gets two records at level ERROR: the one
    of Flask, which carries the exception itself, and the one of
    [internal_error].  First, for [handle_exception], which receives every
    such exception wherever it arose.  Second, for a whole request whose
    view function raises: the two records come after what the view has
    logged before it failed, which is the INFO record of [get_data] on
    /api/data and nothing on the other paths.  Third, the response does
    not depend on the exception: two requests that fail with different
    exceptions get the same response, so nothing of the exception reaches
    the client. *)
Theorem internal_error_response :
  (∀ e srv exc w req,
     main e = Started srv →
     ∃ response,
       handle_exception (application srv) exc
         {| world := w; request := req; root_level := log_level (application srv) |}
       = (internal_error_log req exc, inr response) ∧
       status_code response = 500 ∧
       data response =
         Json (JDict [("error", JStr "Internal server error"); ("status", JInt 500)]) ∧
       carries_security_headers response) ∧
  (∀ e srv w req f,
     main e = Started srv →
     raises w = Some f →
     path req ∈ defined_paths →
     method req ∈ ["GET"; "HEAD"] →
     ∃ response,
       handle (application srv) w req
       = ((if decide (path req = "/api/data")
           then [{| levelname := Py.INFO; msg := "Data endpoint accessed";
                    exc_info := None |}]
           else [])
          ++ internal_error_log req (Fault f),
          inr response) ∧
       status_code response = 500 ∧
       data response =
         Json (JDict [("error", JStr "Internal server error"); ("status", JInt 500)]) ∧
       carries_security_headers response) ∧
  (∀ e srv w1 w2 req f1 f2,
     main e = Started srv →
     raises w1 = Some f1 →
     raises w2 = Some f2 →
     path req ∈ defined_paths →
     method req ∈ ["GET"; "HEAD"] →
     (handle (application srv) w1 req).2 = (handle (application srv) w2 req).2).
Proof.
  assert (carries_security_headers (json_response internal_error_body 500)) as Hc.
  { change (json_response internal_error_body 500)
      with (secured (make_response (Sample.world ∅ None)
                       (RvStatus (jsonify internal_error_body) 500))).
    apply secured_carries. }
  split; [|split].
  - intros e srv exc w req Hmain.
    apply main_started_inv in Hmain as (-> & _ & _).
    rewrite handle_exception_eq by reflexivity.
    eexists. split; [reflexivity|]. split; [reflexivity|]. split; [reflexivity|exact Hc].
  - intros e srv w req f Hmain Hf Hp Hm. rewrite list_elem_of_In in Hp, Hm.
    apply main_started_inv in Hmain as (-> & _ & _).
    rewrite (handle_view_fault e false w req f) by assumption.
    eexists. split; [reflexivity|]. split; [reflexivity|]. split; [reflexivity|exact Hc].
  - intros e srv w1 w2 req f1 f2 Hmain Hf1 Hf2 Hp Hm. rewrite list_elem_of_In in Hp, Hm.
    apply main_started_inv in Hmain as (-> & _ & _).
    rewrite (handle_view_fault e false w1 req f1) by assumption.
    rewrite (handle_view_fault e false w2 req f2) by assumption.
    reflexivity.
Qed.

Lemma internal_error_response_witness :
  ∃ response,
    handle (set_debug false (app ∅)) (Sample.world ∅ (Some (Error "disk full")))
      (Sample.request "GET" "/api/data")
    = ({| levelname := Py.INFO; msg := "Data endpoint accessed"; exc_info := None |}
       :: internal_error_log (Sample.request "GET" "/api/data") (Fault (Error "disk full")),
       inr response) ∧
    status_code response = 500 ∧
    data response =
      Json (JDict [("error", JStr "Internal server error"); ("status", JInt 500)]) ∧
    carries_security_headers response.
Proof.
  refine (proj1 (proj2 internal_error_response) ∅
            {| application := set_debug false (app ∅); host := "0.0.0.0"; port := 8080 |}
            (Sample.world ∅ (Some (Error "disk full")))
            (Sample.request "GET" "/api/data") (Error "disk full")
            eq_refl eq_refl _ _).
  - apply (bool_decide_unpack _). vm_compute. exact I.
  - apply (bool_decide_unpack _). vm_compute. exact I.
Defined.

(** ** C6: the index *)

(** C6.  GET / (when no exception escapes the view) is answered 200 with a
    JSON object of exactly three fields: [message] is the fixed text,
    [version] is APP_VERSION or "1.0.0", and [environment] is ENVIRONMENT
    or "development". *)
Theorem index_response e d w req :
  method req = "GET" → path req = "/" → raises w = None →
  ∃ response,
    handle (set_debug d (app e)) w req = ([], inr response) ∧
    status_code response = 200 ∧
    data response =
      Json (JDict [("message", JStr "Secure CI/CD Pipeline Demo");
                   ("version", JStr match environ w !! "APP_VERSION" with
                                    | Some v => v
                                    | None => "1.0.0"
                                    end);
                   ("environment", JStr match environ w !! "ENVIRONMENT" with
                                        | Some v => v
                                        | None => "development"
                                        end)]).
Proof.
  intros Hm Hp Hf. rewrite handle_index by assumption.
  eexists. split; [reflexivity|]. split; reflexivity.
Qed.

Lemma index_response_witness :
  ∃ response,
    handle (set_debug false (app ∅)) (Sample.world {["ENVIRONMENT" := "staging"]} None)
      (Sample.request "GET" "/") = ([], inr response) ∧
    status_code response = 200 ∧
    data response =
      Json (JDict [("message", JStr "Secure CI/CD Pipeline Demo");
                   ("version", JStr "1.0.0");
                   ("environment", JStr "staging")]).
Proof.
  destruct (index_response ∅ false (Sample.world {["ENVIRONMENT" := "staging"]} None)
              (Sample.request "GET" "/") eq_refl eq_refl eq_refl)
    as (response & H & Hs & Hd).
  exists response. split; [exact H|]. split; [exact Hs|].
  rewrite Hd. vm_compute. reflexivity.
Defined.

(** ** C7: the version *)

(** C7.  When APP_VERSION is set to [v], GET /health and GET / both report
    [version] equal to [v]; and whatever the environment is, set or not,
    the two report the same version. *)
Theorem version_is_app_version :
  (∀ e d w req_health req_index v,
     environ w !! "APP_VERSION" = Some v →
     method req_health = "GET" → path req_health = "/health" →
     method req_index = "GET" → path req_index = "/" →
     raises w = None →
     ∃ health index_ j_health j_index,
       handle (set_debug d (app e)) w req_health = ([], inr health) ∧
       handle (set_debug d (app e)) w req_index = ([], inr index_) ∧
       data health = Json j_health ∧ data index_ = Json j_index ∧
       field j_health "version" = Some (JStr v) ∧
       field j_index "version" = Some (JStr v)) ∧
  (∀ e d w req_health req_index,
     method req_health = "GET" → path req_health = "/health" →
     method req_index = "GET" → path req_index = "/" →
     raises w = None →
     ∃ health index_ j_health j_index version,
       handle (set_debug d (app e)) w req_health = ([], inr health) ∧
       handle (set_debug d (app e)) w req_index = ([], inr index_) ∧
       data health = Json j_health ∧ data index_ = Json j_index ∧
       field j_health "version" = Some version ∧
       field j_index "version" = Some version).
Proof.
  split.
  - intros e d w rh ri v Hv Hmh Hph Hmi Hpi Hf.
    rewrite handle_health_check, handle_index by assumption.
    do 4 eexists. do 4 (split; [reflexivity|]).
    rewrite Hv. split; reflexivity.
  - intros e d w rh ri Hmh Hph Hmi Hpi Hf.
    rewrite handle_health_check, handle_index by assumption.
    do 5 eexists. do 4 (split; [reflexivity|]). split; reflexivity.
Qed.

Lemma version_is_app_version_witness :
  ∃ health index_ j_health j_index,
    handle (set_debug false (app ∅)) (Sample.world {["APP_VERSION" := "2.3.1"]} None)
      (Sample.request "GET" "/health") = ([], inr health) ∧
    handle (set_debug false (app ∅)) (Sample.world {["APP_VERSION" := "2.3.1"]} None)
      (Sample.request "GET" "/") = ([], inr index_) ∧
    data health = Json j_health ∧ data index_ = Json j_index ∧
    field j_health "version" = Some (JStr "2.3.1") ∧
    field j_index "version" = Some (JStr "2.3.1").
Proof.
  exact (proj1 version_is_app_version ∅ false
           (Sample.world {["APP_VERSION" := "2.3.1"]} None)
           (Sample.request "GET" "/health") (Sample.request "GET" "/") "2.3.1"
           eq_refl eq_refl eq_refl eq_refl eq_refl eq_refl).
Defined.

(** ** C8: the handlers read the clock and the environment only *)

(** C8.  Two GET requests for the same one of the four paths, handled in
    worlds that agree on the clock, on the environment and on whether the
    view fails, get the same outcome: the same log, and the same response
    in status, headers and body.  Query string, request headers and request
    body play no part, and neither does the rest of the world. *)
Theorem defined_routes_are_deterministic e d w1 w2 req1 req2 :
  utcnow w1 = utcnow w2 →
  environ w1 = environ w2 →
  raises w1 = raises w2 →
  method req1 = "GET" → method req2 = "GET" →
  path req1 = path req2 →
  path req1 ∈ defined_paths →
  handle (set_debug d (app e)) w1 req1 = handle (set_debug d (app e)) w2 req2.
Proof.
  intros Hnow Henv Hf Hm1 Hm2 Hp Hin. rewrite list_elem_of_In in Hin.
  destruct (raises w2) as [f|] eqn:Hf2.
  - rewrite (handle_view_fault e d w1 req1 f);
      [|assumption|assumption|rewrite Hm1; simpl; tauto].
    rewrite (handle_view_fault e d w2 req2 f);
      [|assumption|rewrite <- Hp; assumption|rewrite Hm2; simpl; tauto].
    unfold internal_error_log. rewrite Hm1, Hm2, Hp. reflexivity.
  - simpl in Hin. destruct Hin as [Hq|[Hq|[Hq|[Hq|[]]]]]; symmetry in Hq.
    + rewrite !handle_health_check by congruence. rewrite Hnow, Henv. reflexivity.
    + rewrite !handle_readiness_check by congruence. rewrite Hnow. reflexivity.
    + rewrite !handle_index by congruence. rewrite Henv. reflexivity.
    + rewrite !handle_get_data by congruence. rewrite Hnow. reflexivity.
Qed.

Lemma defined_routes_are_deterministic_witness :
  handle (set_debug false (app ∅))
    (Sample.world {["APP_VERSION" := "2.3.1"]} None) (Sample.request "GET" "/health")
  = handle (set_debug false (app ∅))
      (Sample.other_world {["APP_VERSION" := "2.3.1"]} None)
      (Sample.other_request "GET" "/health").
Proof.
  apply defined_routes_are_deterministic; try reflexivity.
  apply (bool_decide_unpack _). vm_compute. exact I.
Defined.

(** ** C9: the entry point *)

(** C9.  Whenever [main] starts the server, it is on all interfaces
    ("0.0.0.0"), with [debug] off, and on the port that PORT holds, or on
    8080 when PORT is not set; this holds for every environment, also one
    that asks for debugging.  And the server does start: on 8080 when PORT
    is not set, and on port [n] when PORT is the decimal numeral of a port
    number [n]; the one exception is a process under the [flask] command,
    where [app.run] returns at once. *)
Theorem main_starts_without_debug :
  (∀ e srv,
     main e = Started srv →
     host srv = "0.0.0.0" ∧
     debug (application srv) = false ∧
     match e !! "PORT" with
     | None => port srv = 8080
     | Some s => Py.int_of_str s = Some (port srv)
     end) ∧
  (∀ e,
     e !! "PORT" = None →
     e !! "FLASK_RUN_FROM_CLI" ≠ Some "true" →
     ∃ srv,
       main e = Started srv ∧
       host srv = "0.0.0.0" ∧ port srv = 8080 ∧ debug (application srv) = false) ∧
  (∀ e (n : N),
     e !! "PORT" = Some (pretty n) →
     (n ≤ 65535)%N →
     e !! "FLASK_RUN_FROM_CLI" ≠ Some "true" →
     ∃ srv,
       main e = Started srv ∧
       host srv = "0.0.0.0" ∧ port srv = Z.of_N n ∧ debug (application srv) = false).
Proof.
  split; [|split].
  - intros e srv Hmain.
    apply main_started_inv in Hmain as (Ha & Hh & Hp).
    split; [exact Hh|]. split; [rewrite Ha; reflexivity|exact Hp].
  - intros e Hport Hcli. eexists. split; [apply main_default_port; assumption|].
    split; [reflexivity|]. split; reflexivity.
  - intros e n Hport _ Hcli. eexists.
    split; [eapply main_valid_port; eauto using int_of_str_pretty|].
    split; [reflexivity|]. split; reflexivity.
Qed.

Lemma main_starts_without_debug_witness :
  get_debug_flag {["FLASK_DEBUG" := "1"]} = true ∧
  (∃ srv,
     main {["FLASK_DEBUG" := "1"]} = Started srv ∧
     host srv = "0.0.0.0" ∧ port srv = 8080 ∧ debug (application srv) = false) ∧
  (∃ srv,
     main {["PORT" := "5000"]} = Started srv ∧
     host srv = "0.0.0.0" ∧ port srv = 5000 ∧ debug (application srv) = false).
Proof.
  split; [vm_compute; reflexivity|]. split.
  - apply (proj1 (proj2 main_starts_without_debug) {["FLASK_DEBUG" := "1"]}).
    + vm_compute. reflexivity.
    + vm_compute. discriminate.
  - apply (proj2 (proj2 main_starts_without_debug) {["PORT" := "5000"]} 5000%N).
    + vm_compute. reflexivity.
    + vm_compute. discriminate.
    + vm_compute. discriminate.
Defined.

(** ** C10: a PORT that is not a number *)

(** C10.  When PORT is set to a string that [int()] rejects, [main] raises
    [ValueError] from the conversion and starts nothing; 8080 is the port
    only when PORT is not set, or spells 8080 itself.  What [int()] rejects
    is what [Py.int_of_str] gives no value for: anything but a decimal
    numeral with an optional sign, single underscores between digits, and
    TAB, LF, VT, FF, CR or spaces around it. *)
Theorem invalid_port_raises :
  (∀ e s,
     e !! "PORT" = Some s →
     Py.is_ascii s = true →
     Py.int_of_str s = None →
     main e = Raised (Fault (ValueError s))) ∧
  (∀ e srv,
     main e = Started srv →
     port srv = 8080 →
     e !! "PORT" = None ∨ ∃ s, e !! "PORT" = Some s ∧ Py.int_of_str s = Some 8080).
Proof.
  split.
  - intros e s Hport _ Hint. apply main_invalid_port; assumption.
  - intros e srv Hmain Hp.
    apply main_started_inv in Hmain as (_ & _ & H).
    destruct (e !! "PORT") as [s|]; [right|left; reflexivity].
    exists s. split; [reflexivity|]. rewrite H, Hp. reflexivity.
Qed.

Lemma invalid_port_raises_witness :
  main {["PORT" := "http"]} = Raised (Fault (ValueError "http")) ∧
  main {["PORT" := ""]} = Raised (Fault (ValueError "")) ∧
  main {["PORT" := String "028" "80"]} = Raised (Fault (ValueError (String "028" "80"))).
Proof.
  split; [|split].
  - apply (proj1 invalid_port_raises {["PORT" := "http"]} "http").
    + vm_compute. reflexivity.
    + vm_compute. reflexivity.
    + vm_compute. reflexivity.
  - apply (proj1 invalid_port_raises {["PORT" := ""]} "").
    + vm_compute. reflexivity.
    + vm_compute. reflexivity.
    + vm_compute. reflexivity.
  - apply (proj1 invalid_port_raises {["PORT" := String "028" "80"]} (String "028" "80")).
    + vm_compute. reflexivity.
    + vm_compute. reflexivity.
    + vm_compute. reflexivity.
Defined.

(** * Further properties *)

(** ** The hook and the other headers *)

Lemma entries_cons_eq (h : Headers) k k' v :
  key_eqb k' k = true → entries ((k', v) :: h) k = (k', v) :: entries h k.
Proof. intros Hk. unfold entries. rewrite filter_cons_True by exact Hk. reflexivity. Qed.

Lemma entries_cons_ne (h : Headers) k k' v :
  key_eqb k' k = false → entries ((k', v) :: h) k = entries h k.
Proof.
  intros Hk. unfold entries. rewrite filter_cons_False; [reflexivity|].
  simpl. congruence.
Qed.

Lemma entries_remove_eq (h : Headers) k : entries (remove k h) k = [].
Proof.
  induction h as [|[k' v'] h IH]; [reflexivity|].
  unfold remove in *. destruct (key_eqb k' k) eqn:Hk.
  - rewrite filter_cons_False; [exact IH|]. simpl. congruence.
  - rewrite filter_cons_True by exact Hk. rewrite entries_cons_ne; auto.
Qed.

Lemma entries_remove_ne (h : Headers) k k' :
  key_eqb k' k = false → entries (remove k h) k' = entries h k'.
Proof.
  intros Hne. induction h as [|[k0 v0] h IH]; [reflexivity|].
  unfold remove in *. destruct (key_eqb k0 k) eqn:Hk.
  - rewrite filter_cons_False by (simpl; congruence).
    rewrite entries_cons_ne; [exact IH|].
    eapply key_eqb_trans_false; eauto.
  - rewrite filter_cons_True by exact Hk.
    destruct (key_eqb k0 k') eqn:Hk'.
    + rewrite !entries_cons_eq by exact Hk'. f_equal. exact IH.
    + rewrite !entries_cons_ne by exact Hk'. exact IH.
Qed.

Lemma key_eqb_sym_false k k' : key_eqb k' k = false → key_eqb k k' = false.
Proof. unfold key_eqb. rewrite !String.eqb_neq. congruence. Qed.

Lemma entries_set_eq (h : Headers) k v : entries (set h k v) k = [(k, v)].
Proof.
  induction h as [|[k' v'] h IH]; simpl.
  - rewrite entries_cons_eq by apply key_eqb_refl. reflexivity.
  - destruct (key_eqb k' k) eqn:Hk.
    + rewrite entries_cons_eq by apply key_eqb_refl.
      rewrite entries_remove_eq. reflexivity.
    + rewrite entries_cons_ne by exact Hk. exact IH.
Qed.

Lemma entries_set_ne (h : Headers) k k' v :
  key_eqb k' k = false → entries (set h k v) k' = entries h k'.
Proof.
  intros Hne. induction h as [|[k0 v0] h IH]; simpl.
  - rewrite entries_cons_ne; [reflexivity|]. apply key_eqb_sym_false, Hne.
  - destruct (key_eqb k0 k) eqn:Hk.
    + rewrite !entries_cons_ne
        by (first [apply key_eqb_sym_false, Hne | eapply key_eqb_trans_false; eauto]).
      apply entries_remove_ne, Hne.
    + destruct (key_eqb k0 k') eqn:Hk'.
      * rewrite !entries_cons_eq by exact Hk'. f_equal. exact IH.
      * rewrite !entries_cons_ne by exact Hk'. exact IH.
Qed.

Lemma remove_absent (h : Headers) k : entries h k = [] → remove k h = h.
Proof.
  induction h as [|[k' v'] h IH]; [reflexivity|].
  unfold remove in *. destruct (key_eqb k' k) eqn:Hk.
  - rewrite entries_cons_eq by exact Hk. discriminate.
  - rewrite entries_cons_ne by exact Hk. intros H.
    rewrite filter_cons_True by exact Hk. f_equal. apply IH, H.
Qed.

(** Setting a header that is already there, once and spelled the same,
    changes nothing. *)
Lemma set_present (h : Headers) k v : entries h k = [(k, v)] → set h k v = h.
Proof.
  induction h as [|[k' v'] h IH]; simpl; [discriminate|].
  destruct (key_eqb k' k) eqn:Hk.
  - rewrite entries_cons_eq by exact Hk. intros [= -> -> H].
    f_equal. apply remove_absent, H.
  - rewrite entries_cons_ne by exact Hk. intros H. f_equal. apply IH, H.
Qed.

Lemma getlist_entries (h : Headers) k : getlist h k = (entries h k).*2.
Proof. reflexivity. Qed.

Section filter_set.
Variable P : string * string → bool.
Variables k v : string.
Hypothesis P_rejects : ∀ k' v', key_eqb k' k = true → P (k', v') = false.

Lemma filter_remove_rejected (h : Headers) :
  filter (λ kv, P kv = true) (remove k h) = filter (λ kv, P kv = true) h.
Proof.
  induction h as [|[k' v'] h IH]; [reflexivity|].
  unfold remove in *. destruct (key_eqb k' k) eqn:Hk.
  - rewrite (filter_cons_False (λ kv, key_eqb kv.1 k = false)) by (simpl; congruence).
    rewrite IH. rewrite (filter_cons_False (λ kv, P kv = true)); [reflexivity|].
    rewrite (P_rejects k' v' Hk). discriminate.
  - rewrite (filter_cons_True (λ kv, key_eqb kv.1 k = false)) by exact Hk.
    rewrite !(filter_cons (λ kv, P kv = true)). rewrite IH. reflexivity.
Qed.

(** [h[k] = v] leaves the entries alone that a test picks which rejects
    the name [k]. *)
Lemma filter_set_rejected (h : Headers) :
  filter (λ kv, P kv = true) (set h k v) = filter (λ kv, P kv = true) h.
Proof.
  assert (P (k, v) = false) as Hkv by apply P_rejects, key_eqb_refl.
  induction h as [|[k' v'] h IH]; simpl.
  - rewrite filter_cons_False; [reflexivity|]. rewrite Hkv. discriminate.
  - destruct (key_eqb k' k) eqn:Hk.
    + rewrite !(filter_cons_False (λ kv, P kv = true));
        rewrite ?Hkv, ?(P_rejects k' v' Hk); try discriminate.
      apply filter_remove_rejected.
    + rewrite !(filter_cons (λ kv, P kv = true)). rewrite IH. reflexivity.
Qed.

End filter_set.

Lemma other_headers_secured response :
  other_headers (headers (secured response)) = other_headers (headers response).
Proof.
  unfold other_headers, secured, with_headers; simpl headers.
  repeat (rewrite filter_set_rejected;
          [|intros k' v' Hk; simpl; rewrite ?Hk; simpl;
            rewrite ?andb_false_r; reflexivity]).
  reflexivity.
Qed.

Lemma secured_idempotent response : secured (secured response) = secured response.
Proof.
  unfold secured at 1. unfold with_headers.
  set (h := headers (secured response)).
  assert (∀ kv, In kv security_headers → entries h kv.1 = [kv]) as Hh.
  { intros kv Hin. subst h. unfold secured, with_headers; simpl headers.
    simpl in Hin.
    repeat (destruct Hin as [<-|Hin];
            [simpl; repeat (rewrite entries_set_ne by reflexivity);
             apply entries_set_eq|]).
    destruct Hin. }
  rewrite (set_present h "X-Content-Type-Options" "nosniff")
    by (apply (Hh (_, _)); simpl; tauto).
  rewrite (set_present h "X-Frame-Options" "DENY")
    by (apply (Hh (_, _)); simpl; tauto).
  rewrite (set_present h "X-XSS-Protection" "1; mode=block")
    by (apply (Hh (_, _)); simpl; tauto).
  rewrite (set_present h "Strict-Transport-Security" "max-age=31536000; includeSubDomains")
    by (apply (Hh (_, _)); simpl; tauto).
  subst h. reflexivity.
Qed.

(** ** X1, X2: what [add_security_headers] leaves alone *)

(** X1.  [add_security_headers] keeps every header whose name is none of
    the four, whatever the case of its letters: the same headers, with the
    same values, in the same order. *)
Theorem add_security_headers_keeps_other_headers response ctx :
  ∃ response',
    add_security_headers response ctx = ([], inr response') ∧
    other_headers (headers response') = other_headers (headers response).
Proof.
  exists (secured response). split; [reflexivity|]. apply other_headers_secured.
Qed.

(** X2.  [add_security_headers] is idempotent: run on its own result, it
    hands the response back as it is, with no header added or moved. *)
Theorem add_security_headers_idempotent response ctx ctx' :
  ∃ response',
    add_security_headers response ctx = ([], inr response') ∧
    add_security_headers response' ctx' = ([], inr response').
Proof.
  exists (secured response). split; [reflexivity|].
  rewrite add_security_headers_eq, secured_idempotent. reflexivity.
Qed.

(** ** Every request, case by case *)

Lemma handle_options e d w req :
  In (path req) defined_paths → method req = "OPTIONS" →
  handle (set_debug d (app e)) w req = ([], inr (secured (options_response w))).
Proof.
  intros Hp Hm. simpl in Hp.
  destruct Hp as [Hp|[Hp|[Hp|[Hp|[]]]]]; symmetry in Hp;
    by_cases_on_request w req; reflexivity.
Qed.

(** HEAD reaches the same views as GET. *)
Lemma handle_health_check_head e d w req :
  method req = "HEAD" → path req = "/health" → raises w = None →
  handle (set_debug d (app e)) w req
  = ([], inr (json_response
       (JDict [("status", JStr "healthy");
               ("timestamp", JStr (Py.isoformat (utcnow w)));
               ("version", JStr (default "1.0.0" (environ w !! "APP_VERSION")))])
       200)).
Proof. intros Hm Hp Hf. by_cases_on_request w req. reflexivity. Qed.

Lemma handle_readiness_check_head e d w req :
  method req = "HEAD" → path req = "/ready" → raises w = None →
  handle (set_debug d (app e)) w req
  = ([], inr (json_response
       (JDict [("status", JStr "ready");
               ("timestamp", JStr (Py.isoformat (utcnow w)))])
       200)).
Proof. intros Hm Hp Hf. by_cases_on_request w req. reflexivity. Qed.

Lemma handle_index_head e d w req :
  method req = "HEAD" → path req = "/" → raises w = None →
  handle (set_debug d (app e)) w req
  = ([], inr (json_response
       (JDict [("message", JStr "Secure CI/CD Pipeline Demo");
               ("version", JStr (default "1.0.0" (environ w !! "APP_VERSION")));
               ("environment", JStr (default "development" (environ w !! "ENVIRONMENT")))])
       200)).
Proof. intros Hm Hp Hf. by_cases_on_request w req. reflexivity. Qed.

Lemma handle_get_data_head e d w req :
  method req = "HEAD" → path req = "/api/data" → raises w = None →
  handle (set_debug d (app e)) w req
  = ([{| levelname := Py.INFO; msg := "Data endpoint accessed"; exc_info := None |}],
     inr (json_response
       (JDict [("data", JList [JDict [("id", JInt 1); ("name", JStr "Item 1")];
                               JDict [("id", JInt 2); ("name", JStr "Item 2")];
                               JDict [("id", JInt 3); ("name", JStr "Item 3")]]);
               ("timestamp", JStr (Py.isoformat (utcnow w)))])
       200)).
Proof. intros Hm Hp Hf. by_cases_on_request w req. reflexivity. Qed.

Lemma match_rules_defined_head e d p :
  In p defined_paths →
  ∃ r, match_rules (url_map (set_debug d (app e))) "HEAD" p [] = inr (r, []).
Proof.
  rewrite url_map_app. simpl.
  intros [<-|[<-|[<-|[<-|[]]]]]; eexists; reflexivity.
Qed.

Lemma handle_cases e d w req :
  match_path (PathArg "/static/") (path req) = None →
  request_case d w req (handle (set_debug d (app e)) w req).
Proof.
  intros Hs.
  destruct (in_dec string_dec (path req) defined_paths) as [Hp|Hp].
  2: { rewrite handle_unmatched by assumption. apply case_not_found, Hp. }
  destruct (string_dec (method req) "OPTIONS") as [Ho|Ho].
  { rewrite handle_options by assumption. apply case_options; assumption. }
  destruct (in_dec string_dec (method req) ["GET"; "HEAD"]) as [Hm|Hm].
  2: { assert (¬ In (method req) ["GET"; "HEAD"; "OPTIONS"]) as Hm'.
       { clear -Ho Hm. simpl in *. intuition congruence. }
       rewrite handle_method_not_allowed by assumption.
       apply case_not_allowed; assumption. }
  destruct (raises w) as [f|] eqn:Hf.
  - rewrite (handle_view_fault e d w req f) by assumption.
    apply case_fault; assumption.
  - pose proof Hm as Hm'. pose proof Hp as Hp'. simpl in Hm', Hp'.
    destruct Hp' as [Hq|[Hq|[Hq|[Hq|[]]]]]; symmetry in Hq;
      destruct Hm' as [Hn|[Hn|[]]]; symmetry in Hn.
    + rewrite handle_health_check by assumption. apply case_health_check; assumption.
    + rewrite handle_health_check_head by assumption. apply case_health_check; assumption.
    + rewrite handle_readiness_check by assumption. apply case_readiness_check; assumption.
    + rewrite handle_readiness_check_head by assumption.
      apply case_readiness_check; assumption.
    + rewrite handle_index by assumption. apply case_index; assumption.
    + rewrite handle_index_head by assumption. apply case_index; assumption.
    + rewrite handle_get_data by assumption. apply case_get_data; assumption.
    + rewrite handle_get_data_head by assumption. apply case_get_data; assumption.
Qed.

Ltac settle_decides :=
  repeat case_decide; try reflexivity; exfalso;
  repeat match goal with
         | H : context [_ ∈ _] |- _ => rewrite !list_elem_of_In in H
         end;
  simpl in *; intuition congruence.

(** ** X3: the status of every answer *)

(** X3.  On the server that [main] starts, every request that is not for
    the static folder gets an answer, and its status follows from path,
    method and whether the view raises: 404 when the path is none of the
    four; otherwise 200 for OPTIONS, for GET and HEAD 200, or 500 when the
    view raises, and 405 for every other method.  Paths are taken as
    werkzeug routes them, with one leading slash and no repeated slash. *)
Theorem status_of_every_request e srv w req :
  main e = Started srv →
  canonical_path (path req) = true →
  match_path (PathArg "/static/") (path req) = None →
  ∃ log response,
    handle (application srv) w req = (log, inr response) ∧
    status_code response =
      if decide (path req ∈ defined_paths) then
        if decide (method req = "OPTIONS") then 200
        else if decide (method req ∈ ["GET"; "HEAD"]) then
          match raises w with
          | None => 200
          | Some _ => 500
          end
        else 405
      else 404.
Proof.
  intros Hmain _ Hs. apply main_started_inv in Hmain as (-> & _ & _).
  destruct (handle_cases e false w req Hs) as [Hp|Hp Hm|Hp Hm|f Hp Hm Hf
    |Hp Hm Hf|Hp Hm Hf|Hp Hm Hf|Hp Hm Hf];
    do 2 eexists; (split; [reflexivity|]); simpl status_code;
    clear Hs; rewrite ?Hf; try rewrite Hp in *; settle_decides.
Qed.

Lemma status_of_every_request_witness :
  ∃ log response,
    handle (set_debug false (app ∅)) (Sample.world ∅ (Some (Error "boom")))
      (Sample.request "HEAD" "/ready") = (log, inr response) ∧
    status_code response = 500.
Proof.
  exact (status_of_every_request ∅
           {| application := set_debug false (app ∅); host := "0.0.0.0"; port := 8080 |}
           (Sample.world ∅ (Some (Error "boom"))) (Sample.request "HEAD" "/ready")
           eq_refl eq_refl eq_refl).
Defined.

(** ** X4: what is logged *)



(** ** X5: error bodies *)

(** X5.  On the server that [main] starts, the answers with status 404 or
    500 are exactly the answers whose body is the JSON error object, and
    the [status] field of that object is the HTTP status of the response:
    the 405 page and the successful answers never carry an [error] field. *)
Theorem error_body_matches_status e srv w req :
  main e = Started srv →
  canonical_path (path req) = true →
  match_path (PathArg "/static/") (path req) = None →
  ∃ log response,
    handle (application srv) w req = (log, inr response) ∧
    (status_code response ∈ [404; 500] ↔
     ∃ j, data response = Json j ∧ is_Some (field j "error")) ∧
    (∀ j, data response = Json j → is_Some (field j "error") →
          field j "status" = Some (JInt (status_code response))).
Proof.
  intros Hmain _ Hs. apply main_started_inv in Hmain as (-> & _ & _).
  destruct (handle_cases e false w req Hs) as [Hp|Hp Hm|Hp Hm|f Hp Hm Hf
    |Hp Hm Hf|Hp Hm Hf|Hp Hm Hf|Hp Hm Hf];
    do 2 eexists; (split; [reflexivity|]); clear; simpl status_code; simpl data;
    (split; [split|]).
  all: try solve [intros _; eexists; split; [reflexivity|]; vm_compute; eauto].
  all: try solve [intros _; apply list_elem_of_In; simpl; tauto].
  all: try solve [intros (j & [= <-] & [v Hv]); vm_compute in Hv; discriminate].
  all: try solve [intros (j & Hj & _); discriminate Hj].
  all: try solve [intros j [= <-] [v Hv]; vm_compute in Hv; try discriminate; reflexivity].
  all: try solve [intros j Hj; discriminate Hj].
  all: try solve [intros H; apply list_elem_of_In in H; simpl in H;
                  exfalso; intuition discriminate].
Qed.

Lemma error_body_matches_status_witness :
  ∃ log response,
    handle (set_debug false (app ∅)) (Sample.world ∅ None)
      (Sample.request "GET" "/missing") = (log, inr response) ∧
    (status_code response ∈ [404; 500] ↔
     ∃ j, data response = Json j ∧ is_Some (field j "error")) ∧
    (∀ j, data response = Json j → is_Some (field j "error") →
          field j "status" = Some (JInt (status_code response))).
Proof.
  exact (error_body_matches_status ∅
           {| application := set_debug false (app ∅); host := "0.0.0.0"; port := 8080 |}
           (Sample.world ∅ None) (Sample.request "GET" "/missing")
           eq_refl eq_refl eq_refl).
Defined.

(** ** X6: OPTIONS *)

(** X6.  OPTIONS on one of the four paths is answered by Flask itself and
    never runs the view: the answer is 200 with an empty body and the
    security headers, nothing is logged, and this holds also in a world in
    which the view would raise. *)
Theorem options_never_runs_the_view e d w req :
  path req ∈ defined_paths →
  method req = "OPTIONS" →
  ∃ response,
    handle (set_debug d (app e)) w req = ([], inr response) ∧
    status_code response = 200 ∧
    data response = Data "" ∧
    carries_security_headers response.
Proof.
  intros Hp Hm. rewrite list_elem_of_In in Hp.
  rewrite handle_options by assumption.
  eexists. split; [reflexivity|]. split; [reflexivity|]. split; [reflexivity|].
  apply secured_carries.
Qed.

Lemma options_never_runs_the_view_witness :
  ∃ response,
    handle (set_debug false (app ∅)) (Sample.world ∅ (Some (Error "boom")))
      (Sample.request "OPTIONS" "/api/data") = ([], inr response) ∧
    status_code response = 200 ∧
    data response = Data "" ∧
    carries_security_headers response.
Proof.
  apply options_never_runs_the_view; [|reflexivity].
  apply (bool_decide_unpack _). vm_compute. exact I.
Defined.

(** ** X7: HEAD *)

(** X7.  A HEAD request for one of the four paths is handled as the GET
    request for it: the same response object, and, when the view does not
    raise, the same log. *)
Theorem head_is_handled_as_get e d w req :
  method req = "HEAD" →
  path req ∈ defined_paths →
  (handle (set_debug d (app e)) w req).2
  = (handle (set_debug d (app e)) w (as_get req)).2 ∧
  (raises w = None →
   handle (set_debug d (app e)) w req = handle (set_debug d (app e)) w (as_get req)).
Proof.
  intros Hm Hp. rewrite list_elem_of_In in Hp.
  assert (raises w = None →
          handle (set_debug d (app e)) w req
          = handle (set_debug d (app e)) w (as_get req)) as Hnone.
  { intros Hf. pose proof Hp as Hp'. simpl in Hp'.
    destruct Hp' as [Hq|[Hq|[Hq|[Hq|[]]]]]; symmetry in Hq.
    - rewrite handle_health_check_head, handle_health_check by (assumption || reflexivity). reflexivity.
    - rewrite handle_readiness_check_head, handle_readiness_check
        by (assumption || reflexivity).
      reflexivity.
    - rewrite handle_index_head, handle_index by (assumption || reflexivity). reflexivity.
    - rewrite handle_get_data_head, handle_get_data by (assumption || reflexivity). reflexivity. }
  split; [|exact Hnone].
  destruct (raises w) as [f|] eqn:Hf; [|rewrite Hnone; reflexivity].
  rewrite (handle_view_fault e d w req f);
    [|assumption|assumption|rewrite Hm; simpl; tauto].
  rewrite (handle_view_fault e d w (as_get req) f);
    [|assumption|assumption|simpl; tauto].
  destruct d; reflexivity.
Qed.

Lemma head_is_handled_as_get_witness :
  handle (set_debug false (app ∅)) (Sample.world ∅ None) (Sample.request "HEAD" "/")
  = handle (set_debug false (app ∅)) (Sample.world ∅ None)
      (as_get (Sample.request "HEAD" "/")).
Proof.
  apply head_is_handled_as_get; [reflexivity| |reflexivity].
  apply (bool_decide_unpack _). vm_compute. exact I.
Defined.

(** ** X8: the static folder *)

Lemma match_rules_static e d m p view_args :
  In m ["GET"; "HEAD"] →
  match_path (PathArg "/static/") p = Some view_args →
  match_rules (url_map (set_debug d (app e))) m p []
  = inr ({| rule := PathArg "/static/"; methods := ["GET"; "OPTIONS"; "HEAD"];
            endpoint := "static"; provide_automatic_options := true |}, view_args).
Proof.
  intros Hm Hs. rewrite url_map_app. cbn -[match_path has_method]. rewrite Hs.
  simpl in Hm. destruct Hm as [<-|[<-|[]]]; reflexivity.
Qed.

Lemma handle_static e d w req name :
  In (method req) ["GET"; "HEAD"] →
  match_path (PathArg "/static/") (path req) = Some [name] →
  raises w = None →
  handle (set_debug d (app e)) w req =
    match send_static_file w req name with
    | inr r => ([], inr (secured r))
    | inl NotFound => ([], inr (json_response not_found_body 404))
    | inl _ => handle (set_debug d (app e)) w req
    end.
Proof.
  intros Hm Hs Hf.
  destruct (send_static_file w req name) as [[| ms | o | f]|r] eqn:Hsend;
    try reflexivity; unfold_handle;
    rewrite (match_rules_static e d _ _ [name] Hm Hs), Hf;
    cbn [endpoint provide_automatic_options];
    (assert (method req ≠ "OPTIONS") as Ho
       by (simpl in Hm; destruct Hm as [<-|[<-|[]]]; discriminate));
    rewrite (proj2 (String.eqb_neq _ _) Ho), andb_false_r;
    change (assoc String.eqb "static" (view_functions (set_debug d (app e))))
      with (Some static_view);
    cbv beta iota; unfold static_view; cbn [world request];
    rewrite Hsend; reflexivity.
Qed.

(** X8.  The built-in static route runs through the same hooks as the
    views.  A GET or HEAD request for a file that the static folder does
    not have is answered with the JSON 404 of [not_found], not with the
    page of werkzeug; a file that it has is served as the folder answers,
    with the security headers set on top. *)
Theorem static_files_go_through_the_hooks e d w req name :
  method req ∈ ["GET"; "HEAD"] →
  match_path (PathArg "/static/") (path req) = Some [name] →
  raises w = None →
  (send_static_file w req name = inl NotFound →
   ∃ response,
     handle (set_debug d (app e)) w req = ([], inr response) ∧
     status_code response = 404 ∧
     data response = Json (JDict [("error", JStr "Not found"); ("status", JInt 404)]) ∧
     carries_security_headers response) ∧
  (∀ file, send_static_file w req name = inr file →
   ∃ response,
     handle (set_debug d (app e)) w req = ([], inr response) ∧
     status_code response = status_code file ∧
     data response = data file ∧
     other_headers (headers response) = other_headers (headers file) ∧
     carries_security_headers response).
Proof.
  intros Hm Hs Hf. rewrite list_elem_of_In in Hm.
  pose proof (handle_static e d w req name Hm Hs Hf) as H.
  split.
  - intros Hsend. rewrite Hsend in H. rewrite H.
    eexists. split; [reflexivity|]. split; [reflexivity|]. split; [reflexivity|].
    change (json_response not_found_body 404)
      with (secured (make_response w (RvStatus (jsonify not_found_body) 404))).
    apply secured_carries.
  - intros file Hsend. rewrite Hsend in H. rewrite H.
    eexists. split; [reflexivity|]. split; [reflexivity|]. split; [reflexivity|].
    split; [apply other_headers_secured|apply secured_carries].
Qed.

Lemma static_files_go_through_the_hooks_witness :
  (∃ response,
     handle (set_debug false (app ∅)) (Sample.world ∅ None)
       (Sample.request "GET" "/static/app.css") = ([], inr response) ∧
     status_code response = 404) ∧
  (∃ response,
     handle (set_debug false (app ∅)) (Sample.other_world ∅ None)
       (Sample.request "GET" "/static/app.css") = ([], inr response) ∧
     status_code response = 200 ∧ data response = Data "app.css").
Proof.
  split.
  - destruct (proj1 (static_files_go_through_the_hooks ∅ false (Sample.world ∅ None)
                       (Sample.request "GET" "/static/app.css") "app.css"
                       ltac:(apply (bool_decide_unpack _); vm_compute; exact I)
                       eq_refl eq_refl) eq_refl)
      as (response & H & Hs & _).
    exists response. split; [exact H|exact Hs].
  - destruct (proj2 (static_files_go_through_the_hooks ∅ false (Sample.other_world ∅ None)
                       (Sample.request "GET" "/static/app.css") "app.css"
                       ltac:(apply (bool_decide_unpack _); vm_compute; exact I)
                       eq_refl eq_refl) _ eq_refl)
      as (response & H & Hs & Hd & _).
    exists response. split; [exact H|]. split; [exact Hs|exact Hd].
Defined.

(** ** X9: what each view reads *)

(** X9.  Each view reads no more of the world than its body names.  The
    index does not read the clock: its answer depends on APP_VERSION and
    ENVIRONMENT only.  The readiness check and the data listing do not read
    the environment: their answers depend on the clock only.  The health
    check reads the clock and APP_VERSION, and no other variable. *)
Theorem views_read_what_they_name e d :
  (∀ w1 w2 req1 req2,
     environ w1 !! "APP_VERSION" = environ w2 !! "APP_VERSION" →
     environ w1 !! "ENVIRONMENT" = environ w2 !! "ENVIRONMENT" →
     raises w1 = None → raises w2 = None →
     method req1 = "GET" → method req2 = "GET" →
     path req1 = "/" → path req2 = "/" →
     handle (set_debug d (app e)) w1 req1 = handle (set_debug d (app e)) w2 req2) ∧
  (∀ w1 w2 req1 req2,
     utcnow w1 = utcnow w2 →
     raises w1 = None → raises w2 = None →
     method req1 = "GET" → method req2 = "GET" →
     path req1 = path req2 → path req1 ∈ ["/ready"; "/api/data"] →
     handle (set_debug d (app e)) w1 req1 = handle (set_debug d (app e)) w2 req2) ∧
  (∀ w1 w2 req1 req2,
     utcnow w1 = utcnow w2 →
     environ w1 !! "APP_VERSION" = environ w2 !! "APP_VERSION" →
     raises w1 = None → raises w2 = None →
     method req1 = "GET" → method req2 = "GET" →
     path req1 = "/health" → path req2 = "/health" →
     handle (set_debug d (app e)) w1 req1 = handle (set_debug d (app e)) w2 req2).
Proof.
  split; [|split].
  - intros w1 w2 req1 req2 Hv He Hf1 Hf2 Hm1 Hm2 Hp1 Hp2.
    rewrite !handle_index by assumption. rewrite Hv, He. reflexivity.
  - intros w1 w2 req1 req2 Hnow Hf1 Hf2 Hm1 Hm2 Hp Hin.
    rewrite list_elem_of_In in Hin. simpl in Hin.
    destruct Hin as [Hq|[Hq|[]]]; symmetry in Hq.
    + rewrite !handle_readiness_check by congruence. rewrite Hnow. reflexivity.
    + rewrite !handle_get_data by congruence. rewrite Hnow. reflexivity.
  - intros w1 w2 req1 req2 Hnow Hv Hf1 Hf2 Hm1 Hm2 Hp1 Hp2.
    rewrite !handle_health_check by assumption. rewrite Hnow, Hv. reflexivity.
Qed.

Lemma views_read_what_they_name_witness :
  handle (set_debug false (app ∅))
    (Sample.world {["APP_VERSION" := "2.3.1"]} None) (Sample.request "GET" "/ready")
  = handle (set_debug false (app ∅))
      (Sample.other_world {["ENVIRONMENT" := "production"]} None)
      (Sample.other_request "GET" "/ready").
Proof.
  apply (proj1 (proj2 (views_read_what_they_name ∅ false))); try reflexivity.
  apply (bool_decide_unpack _). vm_compute. exact I.
Defined.

(** ** X10: the readiness check *)

(** X10.  GET /ready (when no exception escapes the view) is answered 200
    with a JSON object of exactly two fields: [status] is "ready" and
    [timestamp] is the ISO format of the clock, of the ISO 8601 shape for a
    valid clock value.  The view probes nothing: the answer is "ready" in
    every world. *)
Theorem readiness_check_response e d w req :
  method req = "GET" → path req = "/ready" → raises w = None →
  ∃ response timestamp,
    handle (set_debug d (app e)) w req = ([], inr response) ∧
    status_code response = 200 ∧
    data response =
      Json (JDict [("status", JStr "ready"); ("timestamp", JStr timestamp)]) ∧
    timestamp = Py.isoformat (utcnow w) ∧
    (Py.valid_datetime (utcnow w) → iso8601_shape timestamp = true) ∧
    carries_security_headers response.
Proof.
  intros Hm Hp Hf. rewrite handle_readiness_check by assumption.
  do 2 eexists. split; [reflexivity|]. split; [reflexivity|].
  split; [reflexivity|]. split; [reflexivity|]. split; [apply isoformat_shape|].
  match goal with
  | |- carries_security_headers (json_response ?j 200) =>
      change (json_response j 200)
        with (secured (make_response w (RvStatus (jsonify j) 200)))
  end.
  apply secured_carries.
Qed.

Lemma readiness_check_response_witness :
  ∃ response,
    handle (set_debug false (app ∅)) (Sample.world ∅ None)
      (Sample.request "GET" "/ready") = ([], inr response) ∧
    status_code response = 200 ∧
    data response =
      Json (JDict [("status", JStr "ready");
                   ("timestamp", JStr "2024-01-02T03:04:05.000678")]).
Proof.
  destruct (readiness_check_response ∅ false (Sample.world ∅ None)
              (Sample.request "GET" "/ready") eq_refl eq_refl eq_refl)
    as (response & timestamp & H & Hs & Hd & Ht & _).
  exists response. split; [exact H|]. split; [exact Hs|].
  rewrite Hd, Ht. vm_compute. reflexivity.
Defined.

(** ** X11: the tests *)

(** X11.  The six tests of [tests/test_app.py] pass in every environment
    and at every clock value, whatever headers the test client sends, as
    long as no exception escapes a view: none of them depends on
    APP_VERSION, ENVIRONMENT or FLASK_DEBUG. *)
Theorem tests_pass_in_every_world e w hs loads_text :
  raises w = None →
  Tests.run_tests (Tests.test_client (app e) w hs) loads_text
  = [Tests.Passed; Tests.Passed; Tests.Passed; Tests.Passed; Tests.Passed; Tests.Passed].
Proof.
  intros Hf. rewrite (app_set_debug e).
  unfold Tests.run_tests, Tests.test_404_handler, Tests.test_api_data,
    Tests.test_health_check, Tests.test_index, Tests.test_readiness_check,
    Tests.test_security_headers, Tests.test_client.
  rewrite handle_unmatched, handle_get_data, handle_health_check, handle_index,
    handle_readiness_check; try assumption; try reflexivity.
  - intros H. simpl in H. intuition discriminate.
Qed.

Lemma tests_pass_in_every_world_witness :
  Tests.run_tests
    (Tests.test_client (app {["FLASK_DEBUG" := "1"; "APP_VERSION" := ""]})
       (Sample.world {["FLASK_DEBUG" := "1"; "APP_VERSION" := ""]} None)
       [("User-Agent", "werkzeug")])
    (λ _, inl (Fault (Error "JSONDecodeError")))
  = [Tests.Passed; Tests.Passed; Tests.Passed; Tests.Passed; Tests.Passed; Tests.Passed].
Proof. apply tests_pass_in_every_world. reflexivity. Defined.

(** ** X12: no check of the port *)

Lemma int_of_str_leading_digit c s v :
  Py.digit_value c = Some v →
  Py.int_of_str (String c s) = Py.int_unsigned (String c s).
Proof.
  intros Hv.
  assert (Py.is_space c = false ∧ c ≠ "-"%char ∧ c ≠ "+"%char) as (Hsp & Hm & Hp).
  { unfold Py.digit_value in Hv. unfold Py.is_space.
    destruct (_ && _)%N eqn:Hr in Hv; [|discriminate].
    split; [|split; intros ->; discriminate Hr].
    apply andb_true_iff in Hr as [H1 H2].
    apply N.leb_le in H1, H2.
    repeat (apply orb_false_iff; split); try apply andb_false_iff;
      rewrite ?N.leb_gt, ?N.eqb_neq; lia. }
  unfold Py.int_of_str. simpl Py.lstrip. rewrite Hsp.
  rewrite !(proj2 (Ascii.eqb_neq _ _)) by assumption. reflexivity.
Qed.

Lemma int_unsigned_pretty (n : N) : Py.int_unsigned (pretty n) = Some (Z.of_N n).
Proof.
  rewrite <- (int_of_str_pretty n).
  destruct (pretty_N_matches n (S (N.to_nat n))) as (i & _ & Hm); [|lia|].
  { etrans; [apply (N.pow_gt_lin_r 10 n); lia|].
    apply N.pow_lt_mono_r; lia. }
  destruct (pretty n) as [|c s] eqn:E.
  { exfalso. revert E. unfold pretty, pretty_N. case_decide; [discriminate|].
    rewrite pretty_N_go_step by lia. apply pretty_N_go_nonempty. discriminate. }
  destruct i as [|i]; [discriminate|].
  simpl in Hm. apply andb_true_iff in Hm as [Hc _].
  unfold Py.is_digit in Hc. destruct (Py.digit_value c) as [v|] eqn:Hv; [|discriminate].
  symmetry. eapply int_of_str_leading_digit, Hv.
Qed.

(** [int(str(n)) == n] for every integer. *)
Lemma int_of_str_pretty_Z (n : Z) : Py.int_of_str (pretty n) = Some n.
Proof.
  destruct n as [|p|p]; unfold pretty, pretty_Z.
  - reflexivity.
  - apply (int_of_str_pretty (N.pos p)).
  - assert (∀ s, Py.int_of_str (String "-" s) = Z.opp <$> Py.int_unsigned s) as Hneg
      by (intros s; reflexivity).
    change ("-" +:+ pretty p) with (String "-" (pretty (N.pos p))).
    rewrite Hneg, int_unsigned_pretty. reflexivity.
Qed.

(** X12.  [main] does not check the range of the port.  Whatever integer
    PORT spells, negative or beyond 65535, in a numeral within the number
    of digits every interpreter reads, [app.run] is called with it as the
    port, on all interfaces and with [debug] off. *)
Theorem main_does_not_check_the_port e (n : Z) :
  e !! "PORT" = Some (pretty n) →
  (String.length (pretty n) ≤ 4300)%nat →
  e !! "FLASK_RUN_FROM_CLI" ≠ Some "true" →
  ∃ srv,
    main e = Started srv ∧
    port srv = n ∧ host srv = "0.0.0.0" ∧ debug (application srv) = false.
Proof.
  intros Hport _ Hcli. eexists.
  split; [eapply main_valid_port; eauto using int_of_str_pretty_Z|].
  split; [reflexivity|]. split; reflexivity.
Qed.

Lemma main_does_not_check_the_port_witness :
  (∃ srv, main {["PORT" := "-1"]} = Started srv ∧ port srv = -1) ∧
  (∃ srv, main {["PORT" := "70000"]} = Started srv ∧ port srv = 70000).
Proof.
  split.
  - destruct (main_does_not_check_the_port {["PORT" := "-1"]} (-1))
      as (srv & H & Hp & _).
    + vm_compute. reflexivity.
    + vm_compute. lia.
    + vm_compute. discriminate.
    + exists srv. split; [exact H|exact Hp].
  - destruct (main_does_not_check_the_port {["PORT" := "70000"]} 70000)
      as (srv & H & Hp & _).
    + vm_compute. reflexivity.
    + vm_compute. lia.
    + vm_compute. discriminate.
    + exists srv. split; [exact H|exact Hp].
Defined.

(** ** X13: the tests when a view raises *)

(** X13.  When the views raise and [debug] is off, the four tests that
    expect status 200 fail on the 500 answer.  [test_404_handler] still
    passes, because no view runs for an unknown path, and so does
    [test_security_headers], because the 500 answer carries the headers
    too. *)
Theorem tests_when_views_raise e w hs loads_text f :
  raises w = Some f →
  get_debug_flag e = false →
  Tests.run_tests (Tests.test_client (app e) w hs) loads_text
  = [Tests.Passed; Tests.Failed; Tests.Failed; Tests.Failed; Tests.Failed; Tests.Passed].
Proof.
  intros Hf Hd. rewrite (app_set_debug e), Hd.
  assert (∀ p, In p defined_paths →
    (handle (set_debug false (app e)) w
       {| method := "GET"; path := p; args := []; request_headers := hs;
          request_data := "" |}).2
    = inr (json_response internal_error_body 500)) as Hfault.
  { intros p Hp.
    rewrite (handle_view_fault e false w _ f);
      [reflexivity|assumption|exact Hp|simpl; tauto]. }
  unfold Tests.run_tests, Tests.test_404_handler, Tests.test_api_data,
    Tests.test_health_check, Tests.test_index, Tests.test_readiness_check,
    Tests.test_security_headers, Tests.test_client.
  rewrite handle_unmatched; [| |reflexivity].
  2: { intros H. simpl in H. intuition discriminate. }
  rewrite !Hfault by (simpl; tauto). reflexivity.
Qed.

Lemma tests_when_views_raise_witness :
  Tests.run_tests
    (Tests.test_client (app ∅) (Sample.world ∅ (Some (Error "boom"))) [])
    (λ _, inl (Fault (Error "JSONDecodeError")))
  = [Tests.Passed; Tests.Failed; Tests.Failed; Tests.Failed; Tests.Failed; Tests.Passed].
Proof. apply (tests_when_views_raise ∅ _ _ _ (Error "boom")); reflexivity. Defined.

(** ** X14: the content type *)

(** X14.  On the server that [main] starts, every answer with a JSON body
    is labelled so: its [Content-Type] header holds application/json and
    nothing else; the hook does not touch it. *)
Theorem json_answers_are_labelled e srv w req :
  main e = Started srv →
  canonical_path (path req) = true →
  match_path (PathArg "/static/") (path req) = None →
  ∃ log response,
    handle (application srv) w req = (log, inr response) ∧
    (∀ j, data response = Json j →
          getlist (headers response) "Content-Type" = ["application/json"]).
Proof.
  intros Hmain _ Hs. apply main_started_inv in Hmain as (-> & _ & _).
  destruct (handle_cases e false w req Hs) as [Hp|Hp Hm|Hp Hm|f Hp Hm Hf
    |Hp Hm Hf|Hp Hm Hf|Hp Hm Hf|Hp Hm Hf];
    do 2 eexists; (split; [reflexivity|]); intros j Hj;
    first [discriminate Hj | reflexivity].
Qed.

Lemma json_answers_are_labelled_witness :
  ∃ log response,
    handle (set_debug false (app ∅)) (Sample.world ∅ None)
      (Sample.request "GET" "/") = (log, inr response) ∧
    (∀ j, data response = Json j →
          getlist (headers response) "Content-Type" = ["application/json"]).
Proof.
  exact (json_answers_are_labelled ∅
           {| application := set_debug false (app ∅); host := "0.0.0.0"; port := 8080 |}
           (Sample.world ∅ None) (Sample.request "GET" "/")
           eq_refl eq_refl eq_refl).
Defined.
